(** * gwpy.detector.channel: [Channel], [parse_channel_name], [ChannelList]

    A shallow embedding of [src/gwpy/detector/channel.py].  The module is
    Python 2 code: strings are byte strings ([string] here), [int]/[long]
    are unbounded integers ([Z]) and [float] is an IEEE binary64 number
    ([spec_float] at precision 53).  Exceptions are explicit: every
    operation that can raise returns a [result]. *)

From Stdlib Require Import ZArith List String Ascii Bool Lia.
From Stdlib Require Import Floats.SpecFloat.
Import ListNotations.

Local Open Scope string_scope.
Local Open Scope list_scope.

(** ** Exceptions and the error monad *)

Inductive pyexc : Type :=
| TypeError
| ValueError
| AttributeError
| OverflowError
| ReError.

Inductive result (A : Type) : Type :=
| Ok (a : A)
| Raise (e : pyexc).

Arguments Ok {A} a.
Arguments Raise {A} e.

Definition bind {A B : Type} (m : result A) (k : A -> result B) : result B :=
  match m with
  | Ok a => k a
  | Raise e => Raise e
  end.

Notation "x <- m ;; k" := (bind m (fun x => k))
  (at level 61, m at next level, right associativity).

Definition raises {A : Type} (m : result A) : Prop :=
  exists e, m = Raise e.

(** A list comprehension [[x for x in l if cond(x)]] whose condition may
    raise: the elements are visited in order and the first exception
    aborts the whole comprehension. *)
Fixpoint filter_m {A : Type} (cond : A -> result bool) (l : list A)
  : result (list A) :=
  match l with
  | [] => Ok []
  | x :: l' =>
      b <- cond x ;;
      rest <- filter_m cond l' ;;
      Ok (if b then x :: rest else rest)
  end.

(** ** Characters and strings *)

Definition char_in (lo hi : nat) (c : ascii) : bool :=
  let n := nat_of_ascii c in (lo <=? n)%nat && (n <=? hi)%nat.

Definition is_upper : ascii -> bool := char_in 65 90.
Definition is_digit : ascii -> bool := char_in 48 57.

(** [str.isspace] for a byte: space, and the controls 9 to 13. *)
Definition is_space (c : ascii) : bool :=
  (nat_of_ascii c =? 32)%nat || char_in 9 13 c.

Definition lower_char (c : ascii) : ascii :=
  if is_upper c then ascii_of_nat (nat_of_ascii c + 32) else c.

(** [s.lower()] *)
Fixpoint lower (s : string) : string :=
  match s with
  | EmptyString => EmptyString
  | String c s' => String (lower_char c) (lower s')
  end.

(** [s.startswith(p)] *)
Definition startswith (p s : string) : bool := String.prefix p s.

Fixpoint lstrip (s : string) : string :=
  match s with
  | EmptyString => EmptyString
  | String c s' => if is_space c then lstrip s' else s
  end.

Fixpoint rstrip (s : string) : string :=
  match s with
  | EmptyString => EmptyString
  | String c s' =>
      match rstrip s' with
      | EmptyString => if is_space c then EmptyString else String c EmptyString
      | r => String c r
      end
  end.

(** ** Floating-point numbers

    A Python [float] is a binary64 number: a [spec_float] in the normal
    form [binary_normalize] produces.  The comparisons [SFeqb], [SFleb]
    and [SFltb] are those of IEEE 754 on such numbers. *)

Definition pyfloat : Type := spec_float.

Definition prec : Z := 53.
Definition emax : Z := 1024.

Definition float_zero : pyfloat := S754_zero false.
Definition float_one : pyfloat := binary_normalize prec emax 1 0 false.

(** [float(z)] for an integer: the nearest binary64 number, ties to even;
    [OverflowError] when the integer is too large. *)
Definition float_of_Z (z : Z) : result pyfloat :=
  match binary_normalize prec emax z 0 false with
  | S754_infinity _ => Raise OverflowError
  | f => Ok f
  end.

(** The binary64 number nearest to [n / d] for [0 <= n] and [0 < d], with
    the sign [neg].  The quotient is computed with at least 64 significant
    bits and a sticky bit, so the one rounding of [binary_normalize] is the
    rounding of the exact quotient. *)
Definition float_of_quotient (neg : bool) (n d : Z) : pyfloat :=
  let k := (64 + Z.log2_up d)%Z in
  let num := (n * 2 ^ k)%Z in
  let q := (num / d)%Z in
  let sticky := if (num mod d =? 0)%Z then 0%Z else 1%Z in
  binary_normalize prec emax (cond_Zopp neg (2 * q + sticky)) (- (k + 1)) neg.

(** The binary64 number nearest to [m * 10 ^ x], for [0 <= m]. *)
Definition float_of_decimal (neg : bool) (m x : Z) : pyfloat :=
  if (0 <=? x)%Z
  then binary_normalize prec emax (cond_Zopp neg (m * 10 ^ x)) 0 neg
  else float_of_quotient neg m (10 ^ (- x)).

(** An optional sign. *)
Definition read_sign (s : string) : bool * string :=
  match s with
  | String "-" s' => (true, s')
  | String "+" s' => (false, s')
  | _ => (false, s)
  end.

(** A maximal run of decimal digits: the number read so far, how many
    digits were read, and what follows. *)
Fixpoint read_digits (s : string) (acc : Z) (n : nat) : Z * nat * string :=
  match s with
  | String c s' =>
      if is_digit c
      then read_digits s' (10 * acc + Z.of_nat (nat_of_ascii c - 48))%Z (S n)
      else (acc, n, s)
  | EmptyString => (acc, n, s)
  end.

Definition read_exponent (s : string) : option Z :=
  let '(eneg, s1) := read_sign s in
  let '(ev, ne, s2) := read_digits s1 0%Z 0%nat in
  match ne, s2 with
  | S _, EmptyString => Some (cond_Zopp eneg ev)
  | _, _ => None
  end.

(** [float(s)] for a string: surrounding white space is ignored; what is
    left is an optional sign followed by [inf], [infinity] or [nan] in any
    case, or by a decimal number with an optional fraction and an optional
    exponent.  [None] stands for the [ValueError] of any other string. *)
Definition float_of_string (s : string) : option pyfloat :=
  let '(neg, s1) := read_sign (rstrip (lstrip s)) in
  let low := lower s1 in
  if (low =? "inf") || (low =? "infinity") then Some (S754_infinity neg)
  else if low =? "nan" then Some S754_nan
  else
    let '(ip, ni, s2) := read_digits s1 0%Z 0%nat in
    let '(m, nf, s3) :=
      match s2 with
      | String "." t => read_digits t ip 0%nat
      | _ => (ip, 0%nat, s2)
      end in
    match (ni + nf)%nat, s3 with
    | O, _ => None
    | _, EmptyString => Some (float_of_decimal neg m (- Z.of_nat nf))
    | _, String c s4 =>
        if (c =? "e")%char || (c =? "E")%char
        then match read_exponent s4 with
             | Some x => Some (float_of_decimal neg m (x - Z.of_nat nf))
             | None => None
             end
        else None
    end.

(** ** Python values

    The values that reach the attributes of a [Channel] and the arguments
    of its methods. *)

(** Instances of [type]: [float], [int], [str], the built-in [type] itself,
    ...; [TyClass] is a class that has none of the methods of [str]. *)
Inductive pytype : Type :=
| TyType
| TyObject
| TyBool
| TyInt
| TyFloat
| TyStr
| TyClass (qualname : string).

(** A unit object of [astropy.units].  Every such object is a [UnitBase];
    [unit_is_Unit] tells whether it is an instance of the class [Unit]
    itself, which is what [isinstance(rate, aunits.Unit)] asks. *)
Record aunit : Type := {
  unit_name : string;
  unit_is_Unit : bool
}.

(** [aunits.Hertz] *)
Definition Hertz : aunit := {| unit_name := "Hz"; unit_is_Unit := true |}.

Inductive pyval : Type :=
| PNone
| PBool (b : bool)
| PInt (z : Z)
| PFloat (f : pyfloat)
| PStr (s : string)
| PType (t : pytype)
| PPattern (pattern : string) (flags : Z)   (* a compiled regular expression *)
| PUnit (u : aunit)
| PQuantity (value : pyfloat) (u : aunit).  (* a scalar [aunits.Quantity] *)

(** ** The libraries the module calls

    The regular-expression engine of [re] and the behaviour of the objects
    of [astropy.units] are not part of this module; it only calls them. *)
Class Library : Type := {
  (** compiled patterns, [re.compile(pattern, flags)] for a string pattern,
      and [p.search(s) is not None] *)
  regex : Type;
  re_compile : string -> Z -> result regex;
  re_search : regex -> string -> bool;
  (** [aunits.Unit(u)] for [u] that is not already a unit object *)
  Unit_parse : pyval -> result aunit;
  (** [float(q)] and the truth value of a scalar [Quantity] *)
  Quantity_float : pyfloat -> aunit -> result pyfloat;
  Quantity_nonzero : pyfloat -> aunit -> result bool
}.

Section ChannelModule.

Context {lib : Library}.

(** [float(v)] *)
Definition py_float (v : pyval) : result pyfloat :=
  match v with
  | PBool b => Ok (if b then float_one else float_zero)
  | PInt z => float_of_Z z
  | PFloat f => Ok f
  | PStr s =>
      match float_of_string s with
      | Some f => Ok f
      | None => Raise ValueError
      end
  | PQuantity v u => Quantity_float v u
  | PNone | PType _ | PPattern _ _ | PUnit _ => Raise TypeError
  end.

(** The truth value of [v], as [or], [and] and [if] test it. *)
Definition py_truth (v : pyval) : result bool :=
  match v with
  | PNone => Ok false
  | PBool b => Ok b
  | PInt z => Ok (negb (z =? 0)%Z)
  | PFloat f => Ok (negb (SFeqb f float_zero))
  | PStr s => Ok (negb (s =? ""))
  | PType _ | PPattern _ _ | PUnit _ => Ok true
  | PQuantity v u => Quantity_nonzero v u
  end.

(** [a or b] *)
Definition py_or (a b : pyval) : result pyval :=
  t <- py_truth a ;;
  Ok (if t then a else b).

(** [aunits.Unit(u)]: a unit object is returned as it is. *)
Definition aunits_Unit (u : pyval) : result aunit :=
  match u with
  | PUnit x => Ok x
  | _ => Unit_parse u
  end.

(** [isinstance(v, aunits.Unit)] *)
Definition isinstance_Unit (v : pyval) : bool :=
  match v with
  | PUnit u => unit_is_Unit u
  | _ => false
  end.

(** The string a method of [str] is called on when it is looked up on [v]
    and called, as in [v.lower()] or [v.startswith(p)]: [v] itself when it
    is a string.  The type [str] has the method, but the call then lacks
    the string it works on and is a [TypeError]; no other value has the
    attribute. *)
Definition str_method_self (v : pyval) : result string :=
  match v with
  | PStr s => Ok s
  | PType TyStr => Raise TypeError
  | _ => Raise AttributeError
  end.

(** [v.lower()] *)
Definition py_lower (v : pyval) : result pyval :=
  s <- str_method_self v ;;
  Ok (PStr (lower s)).

(** ** [parse_channel_name] *)

(** [_re_ifo.match(name)] for [_re_ifo = re.compile("[A-Z]\d:")] *)
Definition _re_ifo_match (name : string) : bool :=
  match name with
  | String a (String b (String c _)) =>
      is_upper a && is_digit b && (c =? ":")%char
  | _ => false
  end.

(** the characters of [_re_cchar = re.compile("[-_]")] *)
Definition is_cchar (c : ascii) : bool :=
  (c =? "-")%char || (c =? "_")%char.

Definition cons_head (c : ascii) (pieces : list string) : list string :=
  match pieces with
  | p :: ps => String c p :: ps
  | [] => [String c EmptyString]
  end.

(** [name.split(":", 1)] *)
Fixpoint split_colon_1 (name : string) : list string :=
  match name with
  | EmptyString => [EmptyString]
  | String c s =>
      if (c =? ":")%char then [EmptyString; s]
      else cons_head c (split_colon_1 s)
  end.

(** [_re_cchar.split(name, maxsplit)] for a positive [maxsplit]; called
    with the number of splits still allowed, nothing is split at 0. *)
Fixpoint _re_cchar_split (remaining : nat) (name : string) : list string :=
  match remaining, name with
  | O, _ => [name]
  | _, EmptyString => [EmptyString]
  | S r, String c s =>
      if is_cchar c then EmptyString :: _re_cchar_split r s
      else cons_head c (_re_cchar_split remaining s)
  end.

Definition name_parts : Type :=
  option string * option string * option string * option string.

(** Decompose a channel name string into its components:
    [(ifo, system, subsystem, signal)]. *)
Definition parse_channel_name (name : string) : name_parts :=
  if name =? "" then (None, None, None, None)
  else
    let '(ifo, name) :=
      if _re_ifo_match name then
        match split_colon_1 name with
        | [i; rest] => (Some i, rest)
        | _ => (None, name)        (* a matched name holds a colon *)
        end
      else (None, name) in
    let tags := _re_cchar_split 3 name in
    let system := nth_error tags 0 in
    let subsystem :=
      if (1 <? List.length tags)%nat then nth_error tags 1 else None in
    let signal :=
      if (2 <? List.length tags)%nat then nth_error tags 2 else None in
    (ifo, system, subsystem, signal).

(** ** [class Channel] *)

Record Channel : Type := {
  _name : string;
  _ifo : option string;
  _system : option string;
  _subsystem : option string;
  _signal : option string;
  _sample_rate : pyval;
  _unit : pyval;
  _dtype : pytype;
  _model : pyval
}.

(** What each setter stores (or raises) for the value it is given. *)

(** [sample_rate.setter] *)
Definition sample_rate_value (rate : pyval) : result pyval :=
  if isinstance_Unit rate then Ok rate
  else
    match rate with
    | PNone => Ok PNone
    | _ => f <- py_float rate ;; Ok (PQuantity f Hertz)
    end.

(** [unit.setter] *)
Definition unit_value (u : pyval) : result pyval :=
  match u with
  | PNone => Ok PNone
  | _ => x <- aunits_Unit u ;; Ok (PUnit x)
  end.

(** [model.setter]: [mdl and mdl.lower() or mdl] *)
Definition model_value (mdl : pyval) : result pyval :=
  x <- (t <- py_truth mdl ;; if t then py_lower mdl else Ok mdl) ;;
  py_or x mdl.

(** [dtype.setter] *)
Definition dtype_value (type_ : pyval) : result pytype :=
  match type_ with
  | PType t => Ok t
  | _ => Raise TypeError
  end.

(** The setters, as assignments [self.attr = value] on an existing
    Channel.  The name is a string, of which [str(n)] is [n] itself. *)

Definition set_name (self : Channel) (n : string) : Channel :=
  let '(ifo, system, subsystem, signal) := parse_channel_name n in
  {| _name := n; _ifo := ifo; _system := system; _subsystem := subsystem;
     _signal := signal; _sample_rate := _sample_rate self;
     _unit := _unit self; _dtype := _dtype self; _model := _model self |}.

Definition store_sample_rate (self : Channel) (r : pyval) : Channel :=
  {| _name := _name self; _ifo := _ifo self; _system := _system self;
     _subsystem := _subsystem self; _signal := _signal self;
     _sample_rate := r;
     _unit := _unit self; _dtype := _dtype self; _model := _model self |}.

Definition store_unit (self : Channel) (x : pyval) : Channel :=
  {| _name := _name self; _ifo := _ifo self; _system := _system self;
     _subsystem := _subsystem self; _signal := _signal self;
     _sample_rate := _sample_rate self;
     _unit := x; _dtype := _dtype self; _model := _model self |}.

Definition store_dtype (self : Channel) (t : pytype) : Channel :=
  {| _name := _name self; _ifo := _ifo self; _system := _system self;
     _subsystem := _subsystem self; _signal := _signal self;
     _sample_rate := _sample_rate self;
     _unit := _unit self; _dtype := t; _model := _model self |}.

Definition store_model (self : Channel) (m : pyval) : Channel :=
  {| _name := _name self; _ifo := _ifo self; _system := _system self;
     _subsystem := _subsystem self; _signal := _signal self;
     _sample_rate := _sample_rate self;
     _unit := _unit self; _dtype := _dtype self; _model := m |}.

Definition set_sample_rate (self : Channel) (rate : pyval) : result Channel :=
  r <- sample_rate_value rate ;; Ok (store_sample_rate self r).

Definition set_unit (self : Channel) (u : pyval) : result Channel :=
  x <- unit_value u ;; Ok (store_unit self x).

Definition set_dtype (self : Channel) (type_ : pyval) : result Channel :=
  t <- dtype_value type_ ;; Ok (store_dtype self t).

Definition set_model (self : Channel) (mdl : pyval) : result Channel :=
  m <- model_value mdl ;; Ok (store_model self m).

(** The first argument of the constructor: a name, or another Channel. *)
Inductive ch_arg : Type :=
| ChName (n : string)
| ChChannel (c : Channel).

(** [Channel.__init__(self, ch, sample_rate, unit, dtype, model)]; an
    omitted keyword argument is [PNone].  The five assignments run in the
    order of the source, and the value assigned to [self.dtype] is the
    built-in [type], as line 70 has it. *)
Definition Channel_init (ch : ch_arg) (sample_rate unit dtype model : pyval)
  : result Channel :=
  args <-
    match ch with
    | ChChannel c =>
        sample_rate <- py_or sample_rate (_sample_rate c) ;;
        unit <- py_or unit (_unit c) ;;
        dtype <- py_or dtype (PType (_dtype c)) ;;
        model <- py_or model (_model c) ;;
        Ok (_name c, sample_rate, unit, dtype, model)
    | ChName n => Ok (n, sample_rate, unit, dtype, model)
    end ;;
  let '(ch, sample_rate, unit, dtype, model) := args in
  let '(ifo, system, subsystem, signal) := parse_channel_name ch in
  r <- sample_rate_value sample_rate ;;
  u <- unit_value unit ;;
  t <- dtype_value (PType TyType) ;;
  m <- model_value model ;;
  Ok {| _name := ch; _ifo := ifo; _system := system;
        _subsystem := subsystem; _signal := signal;
        _sample_rate := r; _unit := u; _dtype := t; _model := m |}.

(** ** [class ChannelList(list)] *)

Definition ChannelList : Type := list Channel.

Fixpoint find_from (i : nat) (self : ChannelList) (name : string)
  : result nat :=
  match self with
  | [] => Raise ValueError
  | chan :: rest =>
      if name =? _name chan then Ok i else find_from (S i) rest name
  end.

(** [ChannelList.find(self, name)] *)
Definition find (self : ChannelList) (name : string) : result nat :=
  find_from 0 self name.

(** [re.compile(pattern, flags=flags)] *)
Definition py_re_compile (pattern : pyval) (flags : Z) : result regex :=
  match pattern with
  | PStr s => re_compile s flags
  | PPattern p f => if (flags =? 0)%Z then re_compile p f else Raise ValueError
  | _ => Raise TypeError
  end.

(** [name.endwith]: the attribute lookup.  No value has an attribute of
    that name (a string has [endswith]), so the lookup raises. *)
Definition getattr_endwith (name : pyval) : result (string -> bool) :=
  Raise AttributeError.

(** [ChannelList.sieve(self, name, sample_rate, sample_range, exact_match)];
    an omitted [name] is [PNone], the rates are floats. *)
Definition sieve (self : ChannelList) (name : pyval)
    (sample_rate : option pyfloat) (sample_range : option (pyfloat * pyfloat))
    (exact_match : bool) : result ChannelList :=
  (* format name regex *)
  let '(flags, name) :=
    match name with
    | PPattern p f => (f, PStr p)
    | _ => (0%Z, name)
    end in
  name <-
    (if exact_match then
       name <-
         (s <- str_method_self name ;;
          Ok (if startswith "\A" s && negb (s =? "") then s
              else ("\A" ++ s)%string)) ;;
       endwith <- getattr_endwith (PStr name) ;;
       Ok (PStr (if endwith "\Z" && negb (name =? "") then name
                 else (name ++ "\Z")%string))
     else Ok name) ;;
  name_regexp <- py_re_compile name flags ;;
  let c := self in
  c <-
    match name with
    | PNone => Ok c
    | _ => filter_m (fun entry => Ok (re_search name_regexp (_name entry))) c
    end ;;
  c <-
    match sample_rate with
    | None => Ok c
    | Some rate =>
        filter_m (fun entry =>
                    f <- py_float (_sample_rate entry) ;; Ok (SFeqb f rate)) c
    end ;;
  c <-
    match sample_range with
    | None => Ok c
    | Some (low, high) =>
        filter_m (fun entry =>
                    f <- py_float (_sample_rate entry) ;;
                    Ok (SFleb low f && SFleb f high)) c
    end ;;
  Ok c.

(** ** Vocabulary of the properties *)

(** [self[j].name], when [j] is an index of [self]. *)
Definition name_at (self : ChannelList) (j : nat) : option string :=
  option_map _name (nth_error self j).

(** The Channels a program can hold: built by the constructor, from a name
    or from such a Channel, and changed by the setters. *)
Inductive reachable : Channel -> Prop :=
| reach_init_name n sample_rate unit dtype model self :
    Channel_init (ChName n) sample_rate unit dtype model = Ok self ->
    reachable self
| reach_init_channel c sample_rate unit dtype model self :
    reachable c ->
    Channel_init (ChChannel c) sample_rate unit dtype model = Ok self ->
    reachable self
| reach_set_name self n :
    reachable self -> reachable (set_name self n)
| reach_set_sample_rate self rate self' :
    reachable self -> set_sample_rate self rate = Ok self' -> reachable self'
| reach_set_unit self u self' :
    reachable self -> set_unit self u = Ok self' -> reachable self'
| reach_set_dtype self type_ self' :
    reachable self -> set_dtype self type_ = Ok self' -> reachable self'
| reach_set_model self mdl self' :
    reachable self -> set_model self mdl = Ok self' -> reachable self'.

(** What the [sample_rate] setter leaves in the attribute. *)
Definition hertz_or_Unit (r : pyval) : Prop :=
  r = PNone \/
  (exists u, r = PUnit u /\ unit_is_Unit u = true) \/
  (exists f, r = PQuantity f Hertz).

(** A frequency that is not negative: a Quantity in hertz, at least 0. *)
Definition nonneg_frequency (r : pyval) : Prop :=
  exists f, r = PQuantity f Hertz /\ SFleb float_zero f = true.

(** What the [unit] setter leaves in the attribute. *)
Definition None_or_unit_object (x : pyval) : Prop :=
  x = PNone \/ exists u, x = PUnit u.

(** The pattern and the flags [sieve] compiles for a [name] that is a
    string or a compiled pattern. *)
Definition pattern_of (name : pyval) : option (string * Z) :=
  match name with
  | PStr s => Some (s, 0%Z)
  | PPattern p f => Some (p, f)
  | _ => None
  end.

(** The attributes of a Channel are as its setters leave them. *)
Definition attrs_set (self : Channel) : Prop :=
  hertz_or_Unit (_sample_rate self) /\
  None_or_unit_object (_unit self) /\
  model_value (_model self) = Ok (_model self).

End ChannelModule.

(** The number of delimiters in a name: one less than its segments. *)
Fixpoint count_cchar (s : string) : nat :=
  match s with
  | EmptyString => 0
  | String c s' => (if is_cchar c then 1 else 0) + count_cchar s'
  end.

(** The last three components of a parsed name. *)
Definition triple (parts : name_parts)
  : option string * option string * option string :=
  let '(_, system, subsystem, signal) := parts in (system, subsystem, signal).

(** A name written from three segments and two delimiters. *)
Definition join_segments (system : string) (d1 : ascii) (subsystem : string)
    (d2 : ascii) (signal : string) : string :=
  (system ++ String d1 (subsystem ++ String d2 signal))%string.

(** [SYSTEM-SUBSYSTEM_SIGNAL], the format of the docstring of [name]. *)
Definition canonical_name (system subsystem signal : string) : string :=
  join_segments system "-" subsystem "_" signal.

(** The text an observatory prefix takes in a name. *)
Definition ifo_prefix (ifo : option string) : string :=
  match ifo with
  | Some i => (i ++ ":")%string
  | None => EmptyString
  end.

(** ** The other methods of [Channel] *)

(** [Channel.__str__] *)
Definition Channel_str (self : Channel) : string := _name self.

(** [s.replace("_", new)] *)
Fixpoint replace_underscore (new : string) (s : string) : string :=
  match s with
  | EmptyString => EmptyString
  | String c s' =>
      if (c =? "_")%char then (new ++ replace_underscore new s')%string
      else String c (replace_underscore new s')
  end.

(** [Channel.tex_name]: [str(self).replace("_", r"\_")] *)
Definition tex_name (self : Channel) : string :=
  replace_underscore "\_" (Channel_str self).

Section Catalog.

(** [gwpy.io.cis.query(name, debug=debug)], the query of the Channel
    Information System; it is not part of this module. *)
Variable cis_query : string -> bool -> result ChannelList.

(** [ChannelList.query(cls, name, debug)] *)
Definition ChannelList_query (name : string) (debug : bool)
  : result ChannelList :=
  cis_query name debug.

(** [Channel.query(cls, name, debug)] *)
Definition Channel_query (name : string) (debug : bool) : result Channel :=
  channellist <- ChannelList_query name debug ;;
  if (List.length channellist =? 0)%nat then Raise ValueError
  else if (1 <? List.length channellist)%nat then Raise ValueError
  else
    match channellist with
    | c :: _ => Ok c
    | [] => Raise ValueError      (* a list of length 1 has a first element *)
    end.

End Catalog.

Section TimeSeries.

Context {lib : Library}.

(** What the NDS module gives: the type of the series, the table
    [nds.DEFAULT_HOSTS], read at the observatory of a Channel ([None] when
    it has no entry for it), and what
    [with nds.NDSConnection(host, port) as connection:
       return connection.fetch(start, end, name)] returns or raises. *)
Variable TimeSeries : Type.
Variable DEFAULT_HOSTS : option string -> option (pyval * pyval).
Variable NDSConnection_fetch :
  pyval -> pyval -> pyval -> pyval -> string -> result TimeSeries.

(** A call of [fetch_timeseries] ends in the connection, returns or raises
    as the connection does or as a truth test does, or raises the
    [KeyError] of the table. *)
Inductive fetch_outcome : Type :=
| Fetch (r : result TimeSeries)
| KeyError.

(** [Channel.fetch_timeseries(self, start, end, host, port)] *)
Definition fetch_timeseries (self : Channel) (start end_ host port : pyval)
  : fetch_outcome :=
  match (h <- py_truth host ;; if h then py_truth port else Ok true) with
  | Raise e => Fetch (Raise e)
  | Ok true =>
      match DEFAULT_HOSTS (_ifo self) with
      | None => KeyError
      | Some (dhost, dport) =>
          match (host <- py_or host dhost ;;
                 port <- py_or port dport ;;
                 Ok (host, port)) with
          | Raise e => Fetch (Raise e)
          | Ok (host, port) =>
              Fetch (NDSConnection_fetch host port start end_ (_name self))
          end
      end
  | Ok false => Fetch (NDSConnection_fetch host port start end_ (_name self))
  end.

End TimeSeries.

Section SieveVocabulary.

Context {lib : Library}.

(** Whether [sieve] keeps a Channel for its rate arguments, once the
    float of its rate is known. *)
Definition rate_matches (sample_rate : option pyfloat) (entry : Channel)
  : bool :=
  match sample_rate with
  | None => true
  | Some rate =>
      match py_float (_sample_rate entry) with
      | Ok f => SFeqb f rate
      | Raise _ => false
      end
  end.

Definition rate_in_range (sample_range : option (pyfloat * pyfloat))
    (entry : Channel) : bool :=
  match sample_range with
  | None => true
  | Some (low, high) =>
      match py_float (_sample_rate entry) with
      | Ok f => SFleb low f && SFleb f high
      | Raise _ => false
      end
  end.

(** The two rate filters of [sieve], as comprehensions. *)
Definition rate_filter (sample_rate : option pyfloat) (c : ChannelList)
  : result ChannelList :=
  match sample_rate with
  | None => Ok c
  | Some rate =>
      filter_m (fun entry =>
                  f <- py_float (_sample_rate entry) ;; Ok (SFeqb f rate)) c
  end.

Definition range_filter (sample_range : option (pyfloat * pyfloat))
    (c : ChannelList) : result ChannelList :=
  match sample_range with
  | None => Ok c
  | Some (low, high) =>
      filter_m (fun entry =>
                  f <- py_float (_sample_rate entry) ;;
                  Ok (SFleb low f && SFleb f high)) c
  end.

(** The answer of a condition that may raise, [False] when it raises. *)
Definition answer_of {A : Type} (cond : A -> result bool) (x : A) : bool :=
  match cond x with
  | Ok b => b
  | Raise _ => false
  end.

End SieveVocabulary.

(** The components [parse_channel_name] reads off the list [tags]. *)
Definition parts_of_tags (ifo : option string) (tags : list string)
  : name_parts :=
  (ifo,
   nth_error tags 0,
   if (1 <? List.length tags)%nat then nth_error tags 1 else None,
   if (2 <? List.length tags)%nat then nth_error tags 2 else None).

(** A component of a parsed name that holds no delimiter. *)
Definition no_cchar (component : option string) : Prop :=
  match component with
  | Some s => count_cchar s = 0
  | None => True
  end.


(** The underscores of a string that no backslash precedes. *)
Fixpoint bare_underscores (after_backslash : bool) (s : string) : nat :=
  match s with
  | EmptyString => 0
  | String c s' =>
      (if (c =? "_")%char && negb after_backslash then 1 else 0) +
      bare_underscores (c =? "\")%char s'
  end.

Fixpoint count_underscores (s : string) : nat :=
  match s with
  | EmptyString => 0
  | String c s' => (if (c =? "_")%char then 1 else 0) + count_underscores s'
  end.

(** ** A library instance for the examples

    [plain_library] answers for the two libraries on the inputs the examples
    below use: patterns without metacharacters compiled with no flags, for
    which [search] looks for the pattern as a substring, and the unit
    objects of [astropy.units] with the scalar conversions the module relies
    on in [sieve] ([float(q)] is the value of [q], and a Quantity is true).
    Any other pattern is refused by [plain_compile], and only a few unit
    names are known to [plain_Unit]. *)

Definition is_metachar (c : ascii) : bool :=
  existsb (Ascii.eqb c) (list_ascii_of_string ".^$*+?{}[]\|()").

Fixpoint all_chars (p : ascii -> bool) (s : string) : bool :=
  match s with
  | EmptyString => true
  | String c s' => p c && all_chars p s'
  end.

Fixpoint contains (p s : string) : bool :=
  String.prefix p s ||
  match s with
  | EmptyString => false
  | String _ s' => contains p s'
  end.

Definition plain_compile (pattern : string) (flags : Z) : result string :=
  if (flags =? 0)%Z && all_chars (fun c => negb (is_metachar c)) pattern
  then Ok pattern
  else Raise ReError.

Definition plain_Unit (u : pyval) : result aunit :=
  match u with
  | PStr "Hz" => Ok Hertz
  | PStr "m" => Ok {| unit_name := "m"; unit_is_Unit := false |}
  | PStr "s" => Ok {| unit_name := "s"; unit_is_Unit := false |}
  | PStr _ => Raise ValueError
  | _ => Raise TypeError
  end.

Definition plain_library : Library := {|
  regex := string;
  re_compile := plain_compile;
  re_search := contains;
  Unit_parse := plain_Unit;
  Quantity_float := fun v _ => Ok v;
  Quantity_nonzero := fun _ _ => Ok true
|}.

(** [Channel("H1:PSL-ISS")], and the same Channel after [ch.dtype = float]. *)
Definition h1_psl_iss : Channel := {|
  _name := "H1:PSL-ISS";
  _ifo := Some "H1"; _system := Some "PSL"; _subsystem := Some "ISS";
  _signal := None;
  _sample_rate := PNone; _unit := PNone; _dtype := TyType; _model := PNone
|}.

Definition h1_psl_iss_float : Channel := {|
  _name := "H1:PSL-ISS";
  _ifo := Some "H1"; _system := Some "PSL"; _subsystem := Some "ISS";
  _signal := None;
  _sample_rate := PNone; _unit := PNone; _dtype := TyFloat; _model := PNone
|}.

(** [Channel("H1")] *)
Definition h1 : Channel := {|
  _name := "H1";
  _ifo := None; _system := Some "H1"; _subsystem := None; _signal := None;
  _sample_rate := PNone; _unit := PNone; _dtype := TyType; _model := PNone
|}.

(** [Channel("L1:PSL-ISS", sample_rate=16)] *)
Definition l1_psl_iss_16 : Channel := {|
  _name := "L1:PSL-ISS";
  _ifo := Some "L1"; _system := Some "PSL"; _subsystem := Some "ISS";
  _signal := None;
  _sample_rate := PQuantity (S754_finite false 4503599627370496 (-48)) Hertz;
  _unit := PNone; _dtype := TyType; _model := PNone
|}.

(** 2048.0, 16.0 and -1.0 *)
Definition f2048 : pyfloat := S754_finite false 4503599627370496 (-41).
Definition f16 : pyfloat := S754_finite false 4503599627370496 (-48).
Definition fminus1 : pyfloat := S754_finite true 4503599627370496 (-52).

(** * Properties *)

(** ** The error monad *)

Lemma bind_Ok {A B : Type} (m : result A) (k : A -> result B) (b : B) :
  bind m k = Ok b -> exists a, m = Ok a /\ k a = Ok b.
Proof.
  destruct m as [a|e]; simpl; intros H.
  - exists a. split; [reflexivity | exact H].
  - discriminate H.
Qed.

Lemma raises_bind {A B : Type} (m : result A) (k : A -> result B) :
  raises m -> raises (bind m k).
Proof.
  intros [e He]. exists e. rewrite He. reflexivity.
Qed.

Lemma raises_not_Ok {A : Type} (m : result A) (a : A) :
  raises m -> m <> Ok a.
Proof.
  intros [e He] H. rewrite He in H. discriminate H.
Qed.

(** From [H : (x <- m ;; k) = Ok b]: the value [x] of [m], as [Hx], and
    [H : k x = Ok b]. *)
Ltac bind_inv H x Hx :=
  apply bind_Ok in H; destruct H as [x [Hx H]].

(** A comprehension whose condition raises on one of the elements raises. *)
Lemma filter_m_raises {A : Type} (cond : A -> result bool) (l : list A) (x : A) :
  In x l -> raises (cond x) -> raises (filter_m cond l).
Proof.
  induction l as [|y l IH]; simpl; intros Hin Hx.
  - contradiction.
  - destruct (cond y) as [b|e] eqn:Hy; simpl.
    + destruct Hin as [->|Hin].
      * rewrite Hy in Hx. destruct Hx as [e He]. discriminate He.
      * destruct (IH Hin Hx) as [e He]. rewrite He. exists e. reflexivity.
    + exists e. reflexivity.
Qed.

(** A comprehension whose condition never raises is [List.filter]. *)
Lemma filter_m_total {A : Type} (p : A -> bool) (l : list A) :
  filter_m (fun x => Ok (p x)) l = Ok (filter p l).
Proof.
  induction l as [|y l IH]; simpl.
  - reflexivity.
  - rewrite IH. simpl. destruct (p y); reflexivity.
Qed.

Lemma filter_m_In {A : Type} (cond : A -> result bool) (l r : list A) (x : A) :
  filter_m cond l = Ok r -> In x l -> cond x = Ok true -> In x r.
Proof.
  revert r. induction l as [|y l IH]; simpl; intros r Hr Hin Hx.
  - contradiction.
  - bind_inv Hr b Hb.
    bind_inv Hr rest Hrest.
    injection Hr as <-.
    destruct Hin as [->|Hin].
    + rewrite Hx in Hb. injection Hb as <-. left. reflexivity.
    + specialize (IH rest Hrest Hin Hx).
      destruct b; [right|]; exact IH.
Qed.

(** ** [ChannelList.find] *)

Lemma find_from_Ok (self : ChannelList) (name : string) (k i : nat) :
  find_from k self name = Ok i <->
  (k <= i /\ name_at self (i - k) = Some name /\
   forall j, j < i - k -> name_at self j <> Some name).
Proof.
  revert k. induction self as [|chan rest IH]; intros k; simpl.
  - split.
    + discriminate.
    + intros [_ [H _]]. unfold name_at in H.
      destruct (i - k); discriminate H.
  - destruct (String.eqb_spec name (_name chan)) as [Heq|Hne].
    + split.
      * intros H. injection H as <-. rewrite Nat.sub_diag.
        repeat split.
        -- apply Nat.le_refl.
        -- unfold name_at. simpl. rewrite Heq. reflexivity.
        -- intros j Hj. inversion Hj.
      * intros [Hle [Hat Hbefore]].
        destruct (i - k) as [|d] eqn:Hd.
        -- f_equal. lia.
        -- exfalso. apply (Hbefore 0); [lia|].
           unfold name_at. simpl. rewrite Heq. reflexivity.
    + rewrite IH. split.
      * intros [Hle [Hat Hbefore]].
        replace (i - k) with (S (i - S k)) by lia.
        repeat split.
        -- lia.
        -- exact Hat.
        -- intros [|j] Hj.
           ++ unfold name_at. simpl. intros H. injection H as H.
              apply Hne. symmetry. exact H.
           ++ apply Hbefore. lia.
      * intros [Hle [Hat Hbefore]].
        destruct (i - k) as [|d] eqn:Hd.
        -- exfalso. unfold name_at in Hat. simpl in Hat.
           injection Hat as Hat. apply Hne. symmetry. exact Hat.
        -- replace (i - S k) with d by lia.
           repeat split.
           ++ lia.
           ++ exact Hat.
           ++ intros j Hj. apply (Hbefore (S j)). lia.
Qed.

Lemma find_from_Raise (self : ChannelList) (name : string) (k : nat) (e : pyexc) :
  find_from k self name = Raise e <->
  (e = ValueError /\ forall chan, In chan self -> _name chan <> name).
Proof.
  revert k. induction self as [|chan rest IH]; intros k; simpl.
  - split.
    + intros H. injection H as <-. split; [reflexivity | intros ? []].
    + intros [-> _]. reflexivity.
  - destruct (String.eqb_spec name (_name chan)) as [Heq|Hne].
    + split.
      * discriminate.
      * intros [_ H]. exfalso. apply (H chan); [left; reflexivity|].
        symmetry. exact Heq.
    + rewrite IH. split.
      * intros [-> H]. split; [reflexivity|].
        intros c [<-|Hin]; [|apply H; exact Hin].
        intros Hc. apply Hne. symmetry. exact Hc.
      * intros [-> H]. split; [reflexivity|].
        intros c Hin. apply H. right. exact Hin.
Qed.

(** C8: [find(name)] returns the index of the first element, in list
    order, whose name equals [name]; it raises, and then [ValueError],
    exactly when no element has that name, as on the empty list. *)
Theorem find_first_match (self : ChannelList) (name : string) :
  (forall i, find self name = Ok i <->
             (name_at self i = Some name /\
              forall j, j < i -> name_at self j <> Some name)) /\
  (forall e, find self name = Raise e <->
             (e = ValueError /\
              forall chan, In chan self -> _name chan <> name)) /\
  find [] name = Raise ValueError.
Proof.
  unfold find. split; [|split].
  - intros i. rewrite find_from_Ok. rewrite Nat.sub_0_r. split.
    + intros [_ H]. exact H.
    + intros H. split; [lia | exact H].
  - intros e. apply find_from_Raise.
  - reflexivity.
Qed.

Section LibraryProperties.

Context {lib : Library}.

(** ** [ChannelList.sieve]: the two paths that always raise *)

(** C3: with no name given, [sieve] raises before it filters anything:
    [re.compile(None, flags=0)] is a [TypeError], whatever the two rate
    arguments are; with [exact_match] the [AttributeError] of
    [None.startswith] comes first.  No copy of the list is returned. *)
Theorem sieve_without_name_raises (self : ChannelList)
    (sample_rate : option pyfloat) (sample_range : option (pyfloat * pyfloat))
    (exact_match : bool) :
  sieve self PNone sample_rate sample_range exact_match =
  Raise (if exact_match then AttributeError else TypeError).
Proof.
  destruct exact_match; reflexivity.
Qed.

(** C4: with [exact_match=True], [sieve] raises [AttributeError] for every
    list and every name that is a string or a compiled pattern: the
    anchored pattern is never compiled, because line 311 looks up [endwith]
    on a string. *)
Theorem sieve_exact_match_raises (self : ChannelList)
    (sample_rate : option pyfloat) (sample_range : option (pyfloat * pyfloat)) :
  (forall s,
     sieve self (PStr s) sample_rate sample_range true
     = Raise AttributeError) /\
  (forall pattern flags,
     sieve self (PPattern pattern flags) sample_rate sample_range true
     = Raise AttributeError).
Proof.
  split; intros; reflexivity.
Qed.

(** ** The [sample_rate] setter *)

Lemma sample_rate_value_coerce (rate : pyval) :
  isinstance_Unit rate = false -> rate <> PNone ->
  sample_rate_value rate = (f <- py_float rate ;; Ok (PQuantity f Hertz)).
Proof.
  intros HU HN. unfold sample_rate_value. rewrite HU.
  destruct rate; try reflexivity. contradiction.
Qed.


(** C5, as the code has it: [None] is stored as [None]; a value that is
    neither [None] nor an instance of [Unit] is stored as [float(value)] in
    hertz when [float] accepts it, and otherwise the setter, and the
    constructor given a name, raise what [float] raises: [ValueError] for a
    string that does not spell a number, [TypeError] for a type, a pattern
    or a unit object. *)
Theorem sample_rate_setter_raises_as_float (self : Channel) (rate : pyval) :
  set_sample_rate self PNone = Ok (store_sample_rate self PNone) /\
  (isinstance_Unit rate = false -> rate <> PNone ->
     (forall f, py_float rate = Ok f ->
        set_sample_rate self rate =
        Ok (store_sample_rate self (PQuantity f Hertz))) /\
     (forall e, py_float rate = Raise e ->
        set_sample_rate self rate = Raise e /\
        forall n unit dtype model,
          Channel_init (ChName n) rate unit dtype model = Raise e)) /\
  (forall s, float_of_string s = None -> py_float (PStr s) = Raise ValueError) /\
  (forall t, py_float (PType t) = Raise TypeError) /\
  (forall p fl, py_float (PPattern p fl) = Raise TypeError) /\
  (forall u, py_float (PUnit u) = Raise TypeError).
Proof.
  split; [reflexivity|]. split.
  - intros HU HN. split.
    + intros f Hf. unfold set_sample_rate.
      rewrite (sample_rate_value_coerce rate HU HN), Hf. reflexivity.
    + intros e He. split.
      * unfold set_sample_rate.
        rewrite (sample_rate_value_coerce rate HU HN), He. reflexivity.
      * intros n unit dtype model. unfold Channel_init. simpl.
        destruct (parse_channel_name n) as [[[ifo sys] sub] sig].
        rewrite (sample_rate_value_coerce rate HU HN), He. reflexivity.
  - repeat split.
    intros s Hs. simpl. rewrite Hs. reflexivity.
Qed.

(** ** The constructor and the [dtype] argument *)

Lemma py_or_total (a b : pyval) :
  (forall v u, a <> PQuantity v u) -> exists x, py_or a b = Ok x.
Proof.
  intros Ha. unfold py_or.
  destruct a; simpl; eauto.
  exfalso. apply (Ha value u). reflexivity.
Qed.

(** C2: the constructor never looks at its [dtype] argument.  Whatever is
    passed (a Quantity apart, whose truth value the library decides) the
    result is that of the call without it, and a Channel that is built has
    the built-in [type] as its dtype.  The setter alone validates: it
    raises [TypeError] for every value that is not a type. *)
Theorem Channel_init_ignores_dtype (ch : ch_arg)
    (sample_rate unit dtype model : pyval) :
  (forall v u, dtype <> PQuantity v u) ->
  Channel_init ch sample_rate unit dtype model =
  Channel_init ch sample_rate unit PNone model /\
  (forall self, Channel_init ch sample_rate unit dtype model = Ok self ->
                _dtype self = TyType) /\
  (forall self, (forall t, dtype <> PType t) ->
                set_dtype self dtype = Raise TypeError).
Proof.
  intros Hd. split; [|split].
  - unfold Channel_init. destruct ch as [n|c]; [reflexivity|].
    destruct (py_or sample_rate (_sample_rate c)) as [sr|e]; [|reflexivity].
    simpl. destruct (py_or unit (_unit c)) as [un|e]; [|reflexivity].
    simpl. destruct (py_or_total dtype (PType (_dtype c)) Hd) as [x Hx].
    rewrite Hx. simpl.
    destruct (py_or model (_model c)) as [md|e]; reflexivity.
  - intros self H. unfold Channel_init in H.
    apply bind_Ok in H. destruct H as [[[[[n sr] un] dt] md] [_ H]].
    destruct (parse_channel_name n) as [[[ifo sys] sub] sig].
    bind_inv H r Hr.
    bind_inv H u Hu.
    simpl in H.
    bind_inv H m Hm.
    injection H as <-. reflexivity.
  - intros self Ht. unfold set_dtype.
    destruct dtype; try reflexivity.
    exfalso. apply (Ht t). reflexivity.
Qed.

End LibraryProperties.

Section ReachableChannels.

Context {lib : Library}.

Lemma sample_rate_value_Ok (rate r : pyval) :
  sample_rate_value rate = Ok r -> hertz_or_Unit r.
Proof.
  unfold sample_rate_value, hertz_or_Unit.
  destruct (isinstance_Unit rate) eqn:HU.
  - intros H. injection H as <-. right. left.
    destruct rate; try discriminate HU. exists u. split; [reflexivity | exact HU].
  - destruct rate; intros H;
      try (apply bind_Ok in H; destruct H as [q [_ H]]; injection H as <-;
           right; right; exists q; reflexivity).
    injection H as <-. left. reflexivity.
Qed.

Lemma unit_value_Ok (u x : pyval) :
  unit_value u = Ok x -> None_or_unit_object x.
Proof.
  unfold unit_value, None_or_unit_object.
  destruct u; intros H;
    try (apply bind_Ok in H; destruct H as [y [_ H]]; injection H as <-;
         right; exists y; reflexivity).
  injection H as <-. left. reflexivity.
Qed.

Lemma unit_value_fixed (x : pyval) :
  None_or_unit_object x -> unit_value x = Ok x.
Proof.
  intros [->|[u ->]]; reflexivity.
Qed.

Lemma lower_char_idempotent (c : ascii) :
  lower_char (lower_char c) = lower_char c.
Proof.
  destruct c as [[] [] [] [] [] [] [] []]; reflexivity.
Qed.

Lemma lower_idempotent (s : string) : lower (lower s) = lower s.
Proof.
  induction s as [|c s IH]; simpl.
  - reflexivity.
  - rewrite lower_char_idempotent, IH. reflexivity.
Qed.

Lemma lower_nonempty (s : string) : (lower s =? "") = (s =? "").
Proof.
  destruct s; reflexivity.
Qed.

(** Only a string has a lower-case form. *)
Lemma py_lower_Ok (v y : pyval) :
  py_lower v = Ok y -> exists s, v = PStr s /\ y = PStr (lower s).
Proof.
  unfold py_lower. intros H.
  destruct v as [| | | |s|t| | |]; try discriminate H.
  - injection H as <-. exists s. split; reflexivity.
  - destruct t; discriminate H.
Qed.

(** The [model] setter stores the value itself when it is false, and the
    lower-case string when it is a string that is not empty. *)
Lemma model_value_Ok (mdl x : pyval) :
  model_value mdl = Ok x ->
  (x = mdl /\ py_truth mdl = Ok false) \/
  (exists s, mdl = PStr s /\ (s =? "") = false /\ x = PStr (lower s)).
Proof.
  unfold model_value, py_or. intros H.
  bind_inv H y Hy.
  bind_inv Hy t Ht.
  destruct t.
  - destruct (py_lower_Ok _ _ Hy) as [s [-> ->]].
    simpl in Ht. injection Ht as Ht.
    right. exists s. split; [reflexivity|]. split.
    + destruct (s =? ""); [discriminate Ht | reflexivity].
    + simpl in H. rewrite lower_nonempty in H.
      destruct (s =? ""); [discriminate Ht|]. simpl in H.
      injection H as <-. reflexivity.
  - injection Hy as <-. rewrite Ht in H. simpl in H. injection H as <-.
    left. split; [reflexivity | exact Ht].
Qed.

Lemma model_value_fixed (mdl x : pyval) :
  model_value mdl = Ok x -> model_value x = Ok x.
Proof.
  intros H. destruct (model_value_Ok mdl x H) as [[-> Ht]|[s [-> [Hs ->]]]].
  - exact H.
  - unfold model_value, py_or. simpl.
    rewrite lower_nonempty, Hs. simpl.
    rewrite lower_idempotent, lower_nonempty, Hs. reflexivity.
Qed.

(** What a successful call of the constructor has run. *)
Lemma Channel_init_Ok (ch : ch_arg) (sample_rate unit dtype model : pyval)
    (self : Channel) :
  Channel_init ch sample_rate unit dtype model = Ok self ->
  exists n rate u mdl,
    sample_rate_value rate = Ok (_sample_rate self) /\
    unit_value u = Ok (_unit self) /\
    model_value mdl = Ok (_model self) /\
    _dtype self = TyType /\
    _name self = n /\
    (_ifo self, _system self, _subsystem self, _signal self) =
    parse_channel_name n.
Proof.
  intros H. unfold Channel_init in H.
  apply bind_Ok in H. destruct H as [[[[[n rate] u] dt] mdl] [_ H]].
  exists n, rate, u, mdl.
  destruct (parse_channel_name n) as [[[ifo sys] sub] sig].
  bind_inv H r Hr.
  bind_inv H x Hx.
  simpl in H.
  bind_inv H m Hm.
  injection H as <-. simpl. repeat split; assumption.
Qed.

Lemma Channel_init_attrs_set (ch : ch_arg)
    (sample_rate unit dtype model : pyval) (self : Channel) :
  Channel_init ch sample_rate unit dtype model = Ok self -> attrs_set self.
Proof.
  intros H. apply Channel_init_Ok in H.
  destruct H as [n [rate [u [mdl [Hr [Hu [Hm _]]]]]]].
  split; [|split].
  - exact (sample_rate_value_Ok _ _ Hr).
  - exact (unit_value_Ok _ _ Hu).
  - exact (model_value_fixed _ _ Hm).
Qed.

Lemma reachable_attrs_set (self : Channel) :
  reachable self -> attrs_set self.
Proof.
  induction 1 as
    [ n sr u d m self H
    | c sr u d m self _ _ H
    | self n _ IH
    | self rate self' _ IH H
    | self u self' _ IH H
    | self t self' _ IH H
    | self mdl self' _ IH H ].
  - exact (Channel_init_attrs_set _ _ _ _ _ _ H).
  - exact (Channel_init_attrs_set _ _ _ _ _ _ H).
  - unfold set_name.
    destruct (parse_channel_name n) as [[[ifo sys] sub] sig]. exact IH.
  - unfold set_sample_rate in H. bind_inv H r Hr. injection H as <-.
    destruct IH as [_ [IHu IHm]]. split; [|split]; simpl.
    + exact (sample_rate_value_Ok _ _ Hr).
    + exact IHu.
    + exact IHm.
  - unfold set_unit in H. bind_inv H x Hx. injection H as <-.
    destruct IH as [IHr [_ IHm]]. split; [|split]; simpl.
    + exact IHr.
    + exact (unit_value_Ok _ _ Hx).
    + exact IHm.
  - unfold set_dtype in H. bind_inv H x Hx. injection H as <-. exact IH.
  - unfold set_model in H. bind_inv H x Hx. injection H as <-.
    destruct IH as [IHr [IHu _]]. split; [|split]; simpl.
    + exact IHr.
    + exact IHu.
    + exact (model_value_fixed _ _ Hx).
Qed.

(** The sign of a rounded number is the sign of what is rounded: a
    mantissa that is not negative never rounds below zero. *)
Lemma shr_1_nonneg (mrs : shr_record) :
  (0 <= shr_m mrs)%Z -> (0 <= shr_m (shr_1 mrs))%Z.
Proof.
  destruct mrs as [m r s]. simpl.
  destruct m as [|[p|p|]|p]; simpl; intros H; lia.
Qed.

Lemma iter_shr_1_nonneg (p : positive) (mrs : shr_record) :
  (0 <= shr_m mrs)%Z -> (0 <= shr_m (iter_pos shr_1 p mrs))%Z.
Proof.
  revert mrs. induction p as [p IH|p IH|]; simpl; intros mrs H.
  - apply IH, IH, shr_1_nonneg, H.
  - apply IH, IH, H.
  - apply shr_1_nonneg, H.
Qed.

Lemma shr_fexp_nonneg (m e : Z) (l : location) :
  (0 <= m)%Z -> (0 <= shr_m (fst (shr_fexp prec emax m e l)))%Z.
Proof.
  intros H. unfold shr_fexp, shr.
  assert (H0 : (0 <= shr_m (shr_record_of_loc m l))%Z).
  { destruct l as [|[]]; exact H. }
  destruct (fexp prec emax (Zdigits2 m + e) - e)%Z; simpl.
  - exact H0.
  - apply iter_shr_1_nonneg, H0.
  - exact H0.
Qed.

Lemma round_nearest_even_nonneg (m : Z) (l : location) :
  (0 <= m)%Z -> (0 <= round_nearest_even m l)%Z.
Proof.
  intros H. destruct l as [|[]]; simpl; try exact H.
  - destruct (Z.even m); lia.
  - lia.
Qed.

Lemma binary_round_aux_sign (m e : Z) (l : location) :
  (0 <= m)%Z ->
  SFleb float_zero (binary_round_aux prec emax false m e l) = true.
Proof.
  intros H. unfold binary_round_aux.
  pose proof (shr_fexp_nonneg m e l H) as H1.
  destruct (shr_fexp prec emax m e l) as [mrs' e']. simpl in H1.
  pose proof (shr_fexp_nonneg _ e' loc_Exact
                (round_nearest_even_nonneg _ (loc_of_shr_record mrs') H1))
    as H2.
  destruct (shr_fexp prec emax
              (round_nearest_even (shr_m mrs') (loc_of_shr_record mrs'))
              e' loc_Exact) as [mrs'' e''].
  simpl in H2.
  destruct (shr_m mrs'') as [|q|q].
  - reflexivity.
  - destruct (e'' <=? emax - prec)%Z; reflexivity.
  - lia.
Qed.

Lemma binary_normalize_sign (m e : Z) :
  (0 <= m)%Z ->
  SFleb float_zero (binary_normalize prec emax m e false) = true.
Proof.
  intros H. destruct m as [|p|p]; simpl.
  - reflexivity.
  - unfold binary_round.
    destruct (shl_align p e (fexp prec emax (Z.pos (digits2_pos p) + e)))
      as [mz ez].
    apply binary_round_aux_sign. lia.
  - lia.
Qed.

(** C6, as the code has it: through construction and every setter call
    the sample rate of a Channel is [None], an instance of [Unit] stored as
    given, or a Quantity in hertz.  Its sign is never looked at: assigning
    an integer that is not negative leaves a frequency that is not
    negative, and so does a float that is not negative. *)
Theorem sample_rate_stays_hertz_or_Unit (self : Channel) :
  reachable self ->
  hertz_or_Unit (_sample_rate self) /\
  (forall z self', (0 <= z)%Z ->
     set_sample_rate self (PInt z) = Ok self' ->
     nonneg_frequency (_sample_rate self')) /\
  (forall f self', SFleb float_zero f = true ->
     set_sample_rate self (PFloat f) = Ok self' ->
     nonneg_frequency (_sample_rate self')).
Proof.
  intros H. apply reachable_attrs_set in H. destruct H as [H _].
  split; [exact H|]. split.
  - intros z self' Hz Hset.
    unfold set_sample_rate, sample_rate_value in Hset. simpl in Hset.
    unfold float_of_Z in Hset.
    pose proof (binary_normalize_sign z 0 Hz) as Hs.
    destruct (binary_normalize prec emax z 0 false) as [b|b| |b m e] eqn:Hf;
      simpl in Hset; try discriminate Hset; injection Hset as <-;
      eexists; (split; [reflexivity | exact Hs]).
  - intros f self' Hf Hset.
    unfold set_sample_rate, sample_rate_value in Hset. simpl in Hset.
    injection Hset as <-. exists f. split; [reflexivity | exact Hf].
Qed.

(** C1: [Channel(existing_channel, sample_rate=2048)] is built for every
    Channel a program can hold; name, unit and model are those of
    [existing_channel], the sample rate is 2048 Hz, and the dtype is the
    built-in [type], whatever the dtype of [existing_channel] is. *)
Theorem Channel_init_from_channel_2048 (existing_channel : Channel) :
  reachable existing_channel ->
  exists self,
    Channel_init (ChChannel existing_channel) (PInt 2048) PNone PNone PNone
    = Ok self /\
    _name self = _name existing_channel /\
    _unit self = _unit existing_channel /\
    _model self = _model existing_channel /\
    _sample_rate self = PQuantity f2048 Hertz /\
    _dtype self = TyType.
Proof.
  intros H. apply reachable_attrs_set in H. destruct H as [_ [Hu Hm]].
  unfold Channel_init. simpl.
  destruct (parse_channel_name (_name existing_channel))
    as [[[ifo sys] sub] sig].
  rewrite (unit_value_fixed _ Hu). simpl. rewrite Hm. simpl.
  eexists. split; [reflexivity|]. simpl. repeat split.
Qed.

End ReachableChannels.

(** ** [parse_channel_name] on names of more than three segments *)

Lemma cons_head_cons (c : ascii) (p : string) (ps : list string) :
  cons_head c (p :: ps) = String c p :: ps.
Proof. reflexivity. Qed.

Lemma split_no_cchar (s : string) (n : nat) :
  count_cchar s = 0 -> _re_cchar_split n s = [s].
Proof.
  induction s as [|c s IH]; intros H.
  - destruct n; reflexivity.
  - destruct n as [|r]; [reflexivity|].
    simpl in H |- *. destruct (is_cchar c).
    + discriminate H.
    + rewrite (IH H). reflexivity.
Qed.

Lemma split_at_cchar (a : string) (d : ascii) (t : string) (r : nat) :
  count_cchar a = 0 -> is_cchar d = true ->
  _re_cchar_split (S r) (a ++ String d t)%string = a :: _re_cchar_split r t.
Proof.
  intros Ha Hd. induction a as [|c a IH]; simpl.
  - rewrite Hd. reflexivity.
  - simpl in Ha. destruct (is_cchar c).
    + discriminate Ha.
    + rewrite (IH Ha). reflexivity.
Qed.

(** A name that holds a delimiter, cut at the first one. *)
Lemma first_cchar (s : string) :
  1 <= count_cchar s ->
  exists a d t,
    s = (a ++ String d t)%string /\ count_cchar a = 0 /\ is_cchar d = true /\
    count_cchar s = S (count_cchar t).
Proof.
  induction s as [|c s IH]; simpl; intros H.
  - inversion H.
  - destruct (is_cchar c) eqn:Hc.
    + exists EmptyString, c, s. repeat split. exact Hc.
    + destruct (IH H) as [a [d [t [-> [Ha [Hd Hn]]]]]].
      exists (String c a), d, t. simpl. rewrite Hc.
      repeat split; assumption.
Qed.

(** A name of more than three segments, cut at its first three
    delimiters. *)
Lemma three_cchars (s : string) :
  3 <= count_cchar s ->
  exists s0 d1 s1 d2 s2 d3 rest,
    s = (s0 ++ String d1 (s1 ++ String d2 (s2 ++ String d3 rest)))%string /\
    count_cchar s0 = 0 /\ count_cchar s1 = 0 /\ count_cchar s2 = 0 /\
    is_cchar d1 = true /\ is_cchar d2 = true /\ is_cchar d3 = true.
Proof.
  intros H.
  destruct (first_cchar s) as [s0 [d1 [t1 [-> [H0 [Hd1 Hn1]]]]]]; [lia|].
  destruct (first_cchar t1) as [s1 [d2 [t2 [-> [H1 [Hd2 Hn2]]]]]]; [lia|].
  destruct (first_cchar t2) as [s2 [d3 [rest [-> [H2 [Hd3 _]]]]]]; [lia|].
  exists s0, d1, s1, d2, s2, d3, rest. repeat split; assumption.
Qed.

Lemma split_four (s0 s1 s2 rest : string) (d1 d2 d3 : ascii) :
  count_cchar s0 = 0 -> count_cchar s1 = 0 -> count_cchar s2 = 0 ->
  is_cchar d1 = true -> is_cchar d2 = true -> is_cchar d3 = true ->
  _re_cchar_split 3
    (s0 ++ String d1 (s1 ++ String d2 (s2 ++ String d3 rest)))%string
  = [s0; s1; s2; rest].
Proof.
  intros H0 H1 H2 Hd1 Hd2 Hd3.
  rewrite (split_at_cchar s0 d1 _ 2 H0 Hd1).
  rewrite (split_at_cchar s1 d2 _ 1 H1 Hd2).
  rewrite (split_at_cchar s2 d3 _ 0 H2 Hd3).
  destruct rest; reflexivity.
Qed.

Lemma split_three (s0 s1 s2 : string) (d1 d2 : ascii) :
  count_cchar s0 = 0 -> count_cchar s1 = 0 -> count_cchar s2 = 0 ->
  is_cchar d1 = true -> is_cchar d2 = true ->
  _re_cchar_split 3 (join_segments s0 d1 s1 d2 s2) = [s0; s1; s2].
Proof.
  intros H0 H1 H2 Hd1 Hd2. unfold join_segments.
  rewrite (split_at_cchar s0 d1 _ 2 H0 Hd1).
  rewrite (split_at_cchar s1 d2 _ 1 H1 Hd2).
  rewrite (split_no_cchar s2 1 H2).
  reflexivity.
Qed.

(** The three characters of an observatory prefix are no delimiters, and
    the first two are no colon. *)
Lemma cchar_not_prefix_char (c : ascii) :
  is_cchar c = true ->
  is_upper c = false /\ is_digit c = false /\ (c =? ":")%char = false.
Proof.
  destruct c as [[] [] [] [] [] [] [] []]; intros H;
    try discriminate H; repeat split.
Qed.

Lemma upper_not_colon (c : ascii) :
  is_upper c = true -> (c =? ":")%char = false /\ is_cchar c = false.
Proof.
  destruct c as [[] [] [] [] [] [] [] []]; intros H;
    try discriminate H; repeat split.
Qed.

Lemma digit_not_colon (c : ascii) :
  is_digit c = true -> (c =? ":")%char = false /\ is_cchar c = false.
Proof.
  destruct c as [[] [] [] [] [] [] [] []]; intros H;
    try discriminate H; repeat split.
Qed.

(** A name that [_re_ifo] matches is split at the colon of the prefix. *)
Lemma ifo_match_split (name : string) :
  _re_ifo_match name = true ->
  exists a b body,
    name = String a (String b (String ":" body)) /\
    split_colon_1 name = [String a (String b EmptyString); body] /\
    count_cchar name = count_cchar body.
Proof.
  destruct name as [|a [|b [|c body]]]; try discriminate.
  simpl. intros H.
  apply andb_true_iff in H. destruct H as [H Hc].
  apply andb_true_iff in H. destruct H as [Ha Hb].
  apply Ascii.eqb_eq in Hc. subst c.
  destruct (upper_not_colon a Ha) as [Ha1 Ha2].
  destruct (digit_not_colon b Hb) as [Hb1 Hb2].
  exists a, b, body. rewrite Ha1, Hb1, Ha2, Hb2. simpl.
  repeat split.
Qed.

(** Whether [_re_ifo] matches is decided by the first segment. *)
Lemma ifo_match_first_segment (s0 : string) (d : ascii) (x : string) :
  is_cchar d = true ->
  _re_ifo_match (s0 ++ String d x)%string = _re_ifo_match s0.
Proof.
  intros Hd. destruct (cchar_not_prefix_char d Hd) as [Hu [Hg Hc]].
  destruct s0 as [|a [|b [|c s0]]]; simpl.
  - destruct x as [|b [|c x]]; try reflexivity. rewrite Hu. reflexivity.
  - destruct x as [|c x]; try reflexivity.
    rewrite Hg, andb_false_r. reflexivity.
  - rewrite Hc. apply andb_false_r.
  - reflexivity.
Qed.

Lemma append_nonempty (a : string) (c : ascii) (b : string) :
  ((a ++ String c b)%string =? "") = false.
Proof.
  destruct a; reflexivity.
Qed.

(** C7, as the code has it: of a name of more than three segments the
    first three segments of what follows the observatory prefix are
    [system], [subsystem] and [signal], and the rest is dropped.  Written
    again from these three segments after the same prefix, with any two
    delimiters, the name parses to the same four components; written from
    the three segments alone it parses to the same three provided the
    system segment does not itself start with an observatory prefix, which
    is so whenever the name had no prefix. *)
Theorem parse_channel_name_first_three (name : string) :
  3 <= count_cchar name ->
  exists ifo system d1 subsystem d2 signal d3 rest,
    name =
    (ifo_prefix ifo ++
     system ++ String d1 (subsystem ++ String d2 (signal ++ String d3 rest)))
    %string /\
    count_cchar system = 0 /\ count_cchar subsystem = 0 /\
    count_cchar signal = 0 /\
    is_cchar d1 = true /\ is_cchar d2 = true /\ is_cchar d3 = true /\
    parse_channel_name name = (ifo, Some system, Some subsystem, Some signal) /\
    (ifo = None -> _re_ifo_match system = false) /\
    forall e1 e2, is_cchar e1 = true -> is_cchar e2 = true ->
      parse_channel_name
        (ifo_prefix ifo ++ join_segments system e1 subsystem e2 signal)%string
      = (ifo, Some system, Some subsystem, Some signal) /\
      (_re_ifo_match system = false ->
       triple (parse_channel_name
                 (join_segments system e1 subsystem e2 signal))
       = (Some system, Some subsystem, Some signal)).
Proof.
  intros H.
  assert (Hjoin : forall s0 s1 s2 e1 e2,
             count_cchar s0 = 0 -> count_cchar s1 = 0 -> count_cchar s2 = 0 ->
             is_cchar e1 = true -> is_cchar e2 = true ->
             _re_ifo_match s0 = false ->
             parse_channel_name (join_segments s0 e1 s1 e2 s2)
             = (None, Some s0, Some s1, Some s2)).
  { intros s0 s1 s2 e1 e2 H0 H1 H2 He1 He2 Hm.
    unfold parse_channel_name.
    unfold join_segments at 1. rewrite append_nonempty.
    unfold join_segments at 1. rewrite (ifo_match_first_segment s0 e1 _ He1), Hm.
    rewrite (split_three s0 s1 s2 e1 e2 H0 H1 H2 He1 He2). reflexivity. }
  destruct (_re_ifo_match name) eqn:Hm.
  - destruct (ifo_match_split name Hm) as [a [b [body [Hname [Hsplit Hcount]]]]].
    rewrite Hcount in H.
    destruct (three_cchars body H)
      as (s0 & d1 & s1 & d2 & s2 & d3 & rest & Hbody & H0 & H1 & H2 & Hd1 & Hd2 & Hd3).
    exists (Some (String a (String b EmptyString))), s0, d1, s1, d2, s2, d3, rest.
    split; [rewrite Hname, Hbody; reflexivity|].
    do 6 (split; [assumption|]).
    split; [|split].
    + unfold parse_channel_name. rewrite Hm, Hsplit.
      rewrite Hname at 1. simpl String.eqb.
      rewrite Hbody, (split_four s0 s1 s2 rest d1 d2 d3 H0 H1 H2 Hd1 Hd2 Hd3).
      reflexivity.
    + discriminate.
    + intros e1 e2 He1 He2. split.
      * subst name. simpl in Hm. simpl ifo_prefix.
        unfold parse_channel_name. simpl String.eqb.
        simpl _re_ifo_match. rewrite Hm.
        simpl in Hsplit. simpl split_colon_1.
        apply andb_true_iff in Hm. destruct Hm as [Hm _].
        apply andb_true_iff in Hm. destruct Hm as [Ha Hb].
        destruct (upper_not_colon a Ha) as [-> _].
        destruct (digit_not_colon b Hb) as [-> _].
        simpl.
        rewrite (split_three s0 s1 s2 e1 e2 H0 H1 H2 He1 He2). reflexivity.
      * intros Hs0.
        rewrite (Hjoin s0 s1 s2 e1 e2 H0 H1 H2 He1 He2 Hs0). reflexivity.
  - destruct (three_cchars name H)
      as (s0 & d1 & s1 & d2 & s2 & d3 & rest & Hname & H0 & H1 & H2 & Hd1 & Hd2 & Hd3).
    assert (Hs0 : _re_ifo_match s0 = false).
    { rewrite <- (ifo_match_first_segment s0 d1
                    (s1 ++ String d2 (s2 ++ String d3 rest))%string Hd1).
      rewrite <- Hname. exact Hm. }
    exists None, s0, d1, s1, d2, s2, d3, rest.
    split; [exact Hname|].
    do 6 (split; [assumption|]).
    split; [|split].
    + unfold parse_channel_name. rewrite Hm.
      rewrite Hname at 1. rewrite append_nonempty.
      rewrite Hname, (split_four s0 s1 s2 rest d1 d2 d3 H0 H1 H2 Hd1 Hd2 Hd3).
      reflexivity.
    + intros _. exact Hs0.
    + intros e1 e2 He1 He2. simpl ifo_prefix. split.
      * exact (Hjoin s0 s1 s2 e1 e2 H0 H1 H2 He1 He2 Hs0).
      * intros _.
        rewrite (Hjoin s0 s1 s2 e1 e2 H0 H1 H2 He1 He2 Hs0). reflexivity.
Qed.

(** ** [ChannelList.sieve] and Channels without a sample rate *)

Section SieveRates.

Context {lib : Library}.

Lemma float_of_absent_rate_raises (chan : Channel) (k : pyfloat -> result bool) :
  _sample_rate chan = PNone ->
  raises (f <- py_float (_sample_rate chan) ;; k f).
Proof.
  intros H. rewrite H. exists TypeError. reflexivity.
Qed.

(** C9, as the code has it: when the name is a string or a compiled
    pattern that compiles, and a rate or a range is given, [sieve] raises
    as soon as one Channel whose name the pattern finds has no sample rate;
    the Channels the pattern does not find are dropped before any rate is
    read.  With no name at all [sieve] raises the [TypeError] of
    [re.compile(None)], whatever the rates are. *)
Theorem sieve_raises_on_absent_rate (self : ChannelList) (name : pyval)
    (sample_rate : option pyfloat) (sample_range : option (pyfloat * pyfloat))
    (pattern : string) (flags : Z) (name_regexp : regex) (chan : Channel) :
  pattern_of name = Some (pattern, flags) ->
  re_compile pattern flags = Ok name_regexp ->
  In chan self ->
  re_search name_regexp (_name chan) = true ->
  _sample_rate chan = PNone ->
  sample_rate <> None \/ sample_range <> None ->
  raises (sieve self name sample_rate sample_range false) /\
  sieve self PNone sample_rate sample_range false = Raise TypeError.
Proof.
  intros Hp Hc Hin Hs Hr Hact. split; [|reflexivity].
  assert (Hkept : In chan
            (filter (fun entry => re_search name_regexp (_name entry)) self)).
  { apply filter_In. split; assumption. }
  assert (Hsieve :
    sieve self name sample_rate sample_range false =
    (c <- (match sample_rate with
           | None =>
               Ok (filter (fun entry => re_search name_regexp (_name entry))
                          self)
           | Some rate =>
               filter_m
                 (fun entry =>
                    f <- py_float (_sample_rate entry) ;; Ok (SFeqb f rate))
                 (filter (fun entry => re_search name_regexp (_name entry))
                         self)
           end) ;;
     c <- (match sample_range with
           | None => Ok c
           | Some (low, high) =>
               filter_m
                 (fun entry =>
                    f <- py_float (_sample_rate entry) ;;
                    Ok (SFleb low f && SFleb f high)) c
           end) ;;
     Ok c)).
  { unfold sieve.
    destruct name; try discriminate Hp; simpl in Hp; injection Hp as <- <-;
      simpl; rewrite Hc; simpl; rewrite filter_m_total; reflexivity. }
  rewrite Hsieve.
  destruct sample_rate as [rate|].
  - apply raises_bind.
    apply (filter_m_raises _ _ chan Hkept).
    apply float_of_absent_rate_raises. exact Hr.
  - destruct sample_range as [[low high]|].
    + simpl. apply raises_bind.
      apply (filter_m_raises _ _ chan Hkept).
      apply float_of_absent_rate_raises. exact Hr.
    + destruct Hact as [H|H]; exfalso; apply H; reflexivity.
Qed.

End SieveRates.

(** * Examples on concrete Channels *)

Lemma h1_psl_iss_float_reachable : reachable (lib := plain_library) h1_psl_iss_float.
Proof.
  apply reach_set_dtype with (self := h1_psl_iss) (type_ := PType TyFloat).
  - apply reach_init_name
      with (n := "H1:PSL-ISS") (sample_rate := PNone) (unit := PNone)
           (dtype := PNone) (model := PNone).
    reflexivity.
  - reflexivity.
Defined.

(** [ch = Channel("H1:PSL-ISS"); ch.dtype = float]: the Channel built by
    [Channel(ch, sample_rate=2048)] has the name, unit and model of [ch]
    and 2048 Hz, and its dtype is [type] while that of [ch] is [float]. *)
Lemma Channel_init_from_channel_2048_witness :
  reachable (lib := plain_library) h1_psl_iss_float /\
  _dtype h1_psl_iss_float = TyFloat /\
  exists self,
    Channel_init (lib := plain_library)
      (ChChannel h1_psl_iss_float) (PInt 2048) PNone PNone PNone = Ok self /\
    _name self = _name h1_psl_iss_float /\
    _unit self = _unit h1_psl_iss_float /\
    _model self = _model h1_psl_iss_float /\
    _sample_rate self = PQuantity f2048 Hertz /\
    _dtype self = TyType.
Proof.
  split; [exact h1_psl_iss_float_reachable|].
  split; [reflexivity|].
  exact (@Channel_init_from_channel_2048 plain_library h1_psl_iss_float
           h1_psl_iss_float_reachable).
Defined.

(** [Channel(ch, dtype="not-a-type")] for [ch = Channel("H1:PSL-ISS")] is
    built, equal to [ch]; [ch.dtype = "not-a-type"] raises [TypeError]. *)
Lemma Channel_init_ignores_dtype_witness :
  (forall v u, PStr "not-a-type" <> PQuantity v u) /\
  Channel_init (lib := plain_library)
    (ChChannel h1_psl_iss) PNone PNone (PStr "not-a-type") PNone
  = Ok h1_psl_iss /\
  set_dtype h1_psl_iss (PStr "not-a-type") = Raise TypeError.
Proof.
  assert (H : forall v u, PStr "not-a-type" <> PQuantity v u)
    by (intros v u; discriminate).
  split; [exact H|].
  destruct (@Channel_init_ignores_dtype plain_library
              (ChChannel h1_psl_iss) PNone PNone (PStr "not-a-type") PNone H)
    as [Hsame [_ Hset]].
  split.
  - rewrite Hsame. reflexivity.
  - apply Hset. intros t. discriminate.
Defined.

(** C5, the claim fails: [ch.sample_rate = "abc"] and
    [Channel("H1:PSL-ISS", sample_rate="abc")] raise [ValueError], the
    error of [float("abc")], and not [TypeError]. *)
Lemma sample_rate_abc_raises_ValueError :
  float_of_string "abc" = None /\
  set_sample_rate (lib := plain_library) h1_psl_iss (PStr "abc")
  = Raise ValueError /\
  Channel_init (lib := plain_library)
    (ChName "H1:PSL-ISS") (PStr "abc") PNone PNone PNone
  = Raise ValueError /\
  set_sample_rate (lib := plain_library) h1_psl_iss (PStr "abc")
  <> Raise TypeError.
Proof.
  repeat split. discriminate.
Qed.

(** C6, the claim fails: [Channel("H1:PSL-ISS", sample_rate=-1)] is built
    and holds -1.0 Hz, a negative frequency. *)
Lemma negative_sample_rate_is_stored :
  exists self,
    Channel_init (lib := plain_library)
      (ChName "H1:PSL-ISS") (PInt (-1)) PNone PNone PNone = Ok self /\
    reachable (lib := plain_library) self /\
    _sample_rate self = PQuantity fminus1 Hertz /\
    SFltb fminus1 float_zero = true /\
    ~ (_sample_rate self = PNone \/ nonneg_frequency (_sample_rate self)).
Proof.
  eexists. split; [reflexivity|]. split; [|split; [reflexivity|split]].
  - apply reach_init_name
      with (n := "H1:PSL-ISS") (sample_rate := PInt (-1)) (unit := PNone)
           (dtype := PNone) (model := PNone).
    reflexivity.
  - reflexivity.
  - simpl. intros [H|[f [H Hf]]].
    + discriminate H.
    + injection H as <-. discriminate Hf.
Qed.

(** [ch = Channel("H1:PSL-ISS"); ch.sample_rate = aunits.Hertz;
    ch.sample_rate = 16]: a Unit, then 16.0 Hz. *)
Lemma sample_rate_stays_hertz_or_Unit_witness :
  exists self,
    set_sample_rate (lib := plain_library)
      (store_sample_rate h1_psl_iss (PUnit Hertz)) (PInt 16) = Ok self /\
    reachable (lib := plain_library) self /\
    _sample_rate self = PQuantity f16 Hertz /\
    hertz_or_Unit (_sample_rate self).
Proof.
  eexists. split; [reflexivity|].
  assert (R : reachable (lib := plain_library)
                (store_sample_rate
                   (store_sample_rate h1_psl_iss (PUnit Hertz))
                   (PQuantity f16 Hertz))).
  { apply reach_set_sample_rate
      with (self := store_sample_rate h1_psl_iss (PUnit Hertz))
           (rate := PInt 16); [|reflexivity].
    apply reach_set_sample_rate
      with (self := h1_psl_iss) (rate := PUnit Hertz); [|reflexivity].
    apply reach_init_name
      with (n := "H1:PSL-ISS") (sample_rate := PNone) (unit := PNone)
           (dtype := PNone) (model := PNone).
    reflexivity. }
  split; [exact R|]. split; [reflexivity|].
  exact (proj1 (@sample_rate_stays_hertz_or_Unit plain_library _ R)).
Defined.

(** C7, the claim fails: the system of ["H1:L1:A-B_C_D"] is ["L1:A"], and
    the name written from the three segments, ["L1:A-B_C"], parses to the
    system ["A"]. *)
Lemma reparse_changes_system_after_prefix :
  3 <= count_cchar "H1:L1:A-B_C_D" /\
  parse_channel_name "H1:L1:A-B_C_D"
  = (Some "H1", Some "L1:A", Some "B", Some "C") /\
  canonical_name "L1:A" "B" "C" = "L1:A-B_C" /\
  parse_channel_name (canonical_name "L1:A" "B" "C")
  = (Some "L1", Some "A", Some "B", Some "C") /\
  triple (parse_channel_name (canonical_name "L1:A" "B" "C"))
  <> triple (parse_channel_name "H1:L1:A-B_C_D").
Proof.
  split; [simpl; lia|]. repeat split. discriminate.
Qed.

(** ["SYS-SUB_SIG_EXTRA_MORE"] parses to SYS, SUB and SIG, and so does
    ["SYS-SUB_SIG"]. *)
Lemma parse_channel_name_first_three_witness :
  3 <= count_cchar "SYS-SUB_SIG_EXTRA_MORE" /\
  triple (parse_channel_name "SYS-SUB_SIG_EXTRA_MORE")
  = (Some "SYS", Some "SUB", Some "SIG") /\
  triple (parse_channel_name (canonical_name "SYS" "SUB" "SIG"))
  = (Some "SYS", Some "SUB", Some "SIG").
Proof.
  assert (H : 3 <= count_cchar "SYS-SUB_SIG_EXTRA_MORE") by (simpl; lia).
  split; [exact H|]. split; [reflexivity|].
  destruct (parse_channel_name_first_three "SYS-SUB_SIG_EXTRA_MORE" H)
    as (ifo & sys & d1 & sub & d2 & sig & d3 & rest & _ & _ & _ & _ & _ & _ & _
        & Hparse & Hnone & Hagain).
  change (parse_channel_name "SYS-SUB_SIG_EXTRA_MORE")
    with (@None string, Some "SYS", Some "SUB", Some "SIG") in Hparse.
  injection Hparse as <- <- <- <-.
  destruct (Hagain "-"%char "_"%char eq_refl eq_refl) as [_ Htriple].
  exact (Htriple (Hnone eq_refl)).
Defined.

(** C9, the claim fails: ["H1:PSL-ISS"] has no sample rate, and
    [sieve(name="L1", sample_rate=16)] returns the one Channel of L1 without
    raising; so does the call with [sample_range=(16, 2048)]. *)
Lemma sieve_name_filter_hides_absent_rate :
  In h1_psl_iss [h1_psl_iss; l1_psl_iss_16] /\
  _sample_rate h1_psl_iss = PNone /\
  sieve (lib := plain_library)
    [h1_psl_iss; l1_psl_iss_16] (PStr "L1") (Some f16) None false
  = Ok [l1_psl_iss_16] /\
  sieve (lib := plain_library)
    [h1_psl_iss; l1_psl_iss_16] (PStr "L1") None (Some (f16, f2048)) false
  = Ok [l1_psl_iss_16] /\
  ~ raises (sieve (lib := plain_library)
              [h1_psl_iss; l1_psl_iss_16] (PStr "L1") (Some f16) None false).
Proof.
  split; [left; reflexivity|]. repeat split.
  intros [e He]. discriminate He.
Qed.

(** [sieve(name="PSL", sample_rate=16)] on the same list reads the rate of
    ["H1:PSL-ISS"], which is [None], and raises. *)
Lemma sieve_raises_on_absent_rate_witness :
  pattern_of (PStr "PSL") = Some ("PSL", 0%Z) /\
  re_compile (Library := plain_library) "PSL" 0 = Ok "PSL" /\
  In h1_psl_iss [h1_psl_iss; l1_psl_iss_16] /\
  re_search (Library := plain_library) "PSL" (_name h1_psl_iss) = true /\
  _sample_rate h1_psl_iss = PNone /\
  raises (sieve (lib := plain_library)
            [h1_psl_iss; l1_psl_iss_16] (PStr "PSL") (Some f16) None false).
Proof.
  assert (Hin : In h1_psl_iss [h1_psl_iss; l1_psl_iss_16])
    by (left; reflexivity).
  repeat (split; [first [reflexivity | exact Hin]|]).
  apply (@sieve_raises_on_absent_rate plain_library
           [h1_psl_iss; l1_psl_iss_16] (PStr "PSL") (Some f16) None
           "PSL" 0%Z "PSL" h1_psl_iss);
    try reflexivity.
  - exact Hin.
  - left. discriminate.
Defined.

(** * Further properties of the module *)

(** ** [parse_channel_name] on every name *)

Lemma parse_prefixed (a b : ascii) (body : string) :
  is_upper a = true -> is_digit b = true ->
  parse_channel_name (String a (String b (String ":" body))) =
  parts_of_tags (Some (String a (String b EmptyString)))
                (_re_cchar_split 3 body).
Proof.
  intros Ha Hb.
  destruct (upper_not_colon a Ha) as [Ha1 _].
  destruct (digit_not_colon b Hb) as [Hb1 _].
  unfold parse_channel_name. simpl String.eqb. simpl _re_ifo_match.
  rewrite Ha, Hb. simpl. rewrite Ha1, Hb1. reflexivity.
Qed.

Lemma parse_unprefixed (name : string) :
  name <> EmptyString -> _re_ifo_match name = false ->
  parse_channel_name name = parts_of_tags None (_re_cchar_split 3 name).
Proof.
  intros Hne Hm. unfold parse_channel_name. rewrite Hm.
  destruct (String.eqb_spec name ""); [contradiction | reflexivity].
Qed.

Lemma ifo_match_shape (name : string) :
  _re_ifo_match name = true ->
  exists a b body,
    name = String a (String b (String ":" body)) /\
    is_upper a = true /\ is_digit b = true.
Proof.
  destruct name as [|a [|b [|c body]]]; try discriminate.
  simpl. intros H.
  apply andb_true_iff in H. destruct H as [H Hc].
  apply andb_true_iff in H. destruct H as [Ha Hb].
  apply Ascii.eqb_eq in Hc. subst c.
  exists a, b, body. repeat split; assumption.
Qed.

Lemma split_length (s : string) (n : nat) :
  List.length (_re_cchar_split n s) = S (Nat.min n (count_cchar s)).
Proof.
  revert n. induction s as [|c s IH]; intros n.
  - destruct n; reflexivity.
  - destruct n as [|r]; [reflexivity|].
    simpl. destruct (is_cchar c).
    + simpl. rewrite IH. reflexivity.
    + specialize (IH (S r)).
      destruct (_re_cchar_split (S r) s) as [|p ps]; [discriminate IH|].
      exact IH.
Qed.

(** The pieces before the last split allowed hold no delimiter. *)
Lemma split_piece_no_cchar (s : string) (n i : nat) (p : string) :
  i < n -> nth_error (_re_cchar_split n s) i = Some p -> count_cchar p = 0.
Proof.
  revert n i p. induction s as [|c s IH]; intros n i p Hi Hp.
  - destruct n as [|r]; [inversion Hi|].
    simpl in Hp. destruct i as [|i]; simpl in Hp.
    + injection Hp as <-. reflexivity.
    + destruct i; discriminate Hp.
  - destruct n as [|r]; [inversion Hi|].
    simpl in Hp. destruct (is_cchar c) eqn:Hc.
    + destruct i as [|i]; simpl in Hp.
      * injection Hp as <-. reflexivity.
      * destruct r as [|r]; [lia|].
        apply (IH (S r) i p); [lia | exact Hp].
    + pose proof (split_length s (S r)) as Hlen.
      destruct (_re_cchar_split (S r) s) as [|q qs] eqn:Hsplit;
        [discriminate Hlen|].
      simpl in Hp. destruct i as [|i]; simpl in Hp.
      * injection Hp as <-. simpl. rewrite Hc.
        apply (IH (S r) 0 q); [lia|]. rewrite Hsplit. reflexivity.
      * apply (IH (S r) (S i) p); [exact Hi|]. rewrite Hsplit. exact Hp.
Qed.

Lemma nth_error_in_range {A : Type} (l : list A) (i : nat) :
  i < List.length l -> nth_error l i <> None.
Proof.
  intros H. apply nth_error_Some. exact H.
Qed.

(** What [parts_of_tags] gives for the tags of a body with [k] delimiters. *)
Lemma parts_of_tags_presence (ifo : option string) (body : string) :
  let '(_, system, subsystem, signal) :=
    parts_of_tags ifo (_re_cchar_split 3 body) in
  system <> None /\
  (subsystem = None <-> count_cchar body = 0) /\
  (signal = None <-> count_cchar body <= 1).
Proof.
  unfold parts_of_tags.
  pose proof (split_length body 3) as Hlen.
  set (tags := _re_cchar_split 3 body) in *.
  split; [|split].
  - apply nth_error_in_range. lia.
  - destruct (Nat.ltb_spec 1 (List.length tags)) as [H|H].
    + split.
      * intros Hn. exfalso. exact (nth_error_in_range tags 1 H Hn).
      * intros Hk. lia.
    + split; [intros _; lia | reflexivity].
  - destruct (Nat.ltb_spec 2 (List.length tags)) as [H|H].
    + split.
      * intros Hn. exfalso. exact (nth_error_in_range tags 2 H Hn).
      * intros Hk. lia.
    + split; [intros _; lia | reflexivity].
Qed.

(** X1: which components a name has.  The empty name has none.  Any other
    name has a system; it has a subsystem exactly when it holds a
    delimiter, and a signal exactly when it holds two. *)
Theorem parse_channel_name_presence (name : string) :
  parse_channel_name EmptyString = (None, None, None, None) /\
  (name <> EmptyString ->
   let '(_, system, subsystem, signal) := parse_channel_name name in
   system <> None /\
   (subsystem = None <-> count_cchar name = 0) /\
   (signal = None <-> count_cchar name <= 1)).
Proof.
  split; [reflexivity|]. intros Hne.
  destruct (_re_ifo_match name) eqn:Hm.
  - destruct (ifo_match_split name Hm) as [a [b [body [Hname [_ Hcount]]]]].
    destruct (ifo_match_shape name Hm) as [a' [b' [body' [Hname' [Ha Hb]]]]].
    rewrite Hname in Hname'. injection Hname' as <- <- <-.
    rewrite Hcount. rewrite Hname, (parse_prefixed a b body Ha Hb).
    apply parts_of_tags_presence.
  - rewrite (parse_unprefixed name Hne Hm).
    apply parts_of_tags_presence.
Qed.


Lemma parts_of_tags_no_cchar (ifo : option string) (body : string) :
  no_cchar ifo ->
  let '(i, system, subsystem, signal) :=
    parts_of_tags ifo (_re_cchar_split 3 body) in
  no_cchar i /\ no_cchar system /\ no_cchar subsystem /\ no_cchar signal.
Proof.
  intros Hi. unfold parts_of_tags.
  assert (H : forall k, k < 3 ->
            no_cchar (nth_error (_re_cchar_split 3 body) k)).
  { intros k Hk.
    destruct (nth_error (_re_cchar_split 3 body) k) as [p|] eqn:Hp;
      [|exact I].
    exact (split_piece_no_cchar body 3 k p Hk Hp). }
  split; [exact Hi|]. split; [apply H; lia|]. split.
  - destruct (1 <? List.length (_re_cchar_split 3 body))%nat;
      [apply H; lia | exact I].
  - destruct (2 <? List.length (_re_cchar_split 3 body))%nat;
      [apply H; lia | exact I].
Qed.

(** X3: no component of a parsed name holds a delimiter: what follows the
    third delimiter of a name is in none of them. *)
Theorem parse_channel_name_components_no_delimiter (name : string) :
  let '(ifo, system, subsystem, signal) := parse_channel_name name in
  no_cchar ifo /\ no_cchar system /\ no_cchar subsystem /\ no_cchar signal.
Proof.
  destruct (_re_ifo_match name) eqn:Hm.
  - destruct (ifo_match_shape name Hm) as [a [b [body [Hname [Ha Hb]]]]].
    rewrite Hname, (parse_prefixed a b body Ha Hb).
    apply parts_of_tags_no_cchar. simpl.
    destruct (upper_not_colon a Ha) as [_ ->].
    destruct (digit_not_colon b Hb) as [_ ->]. reflexivity.
  - destruct (String.eqb_spec name "") as [->|Hne].
    + simpl. repeat split.
    + rewrite (parse_unprefixed name Hne Hm).
      apply parts_of_tags_no_cchar. exact I.
Qed.

Lemma append_not_empty (a : string) (c : ascii) (b : string) :
  (a ++ String c b)%string <> EmptyString.
Proof.
  destruct a; discriminate.
Qed.

(** X4: names of one, two and three segments are parsed in full.  After
    an observatory prefix, or with none when the system does not itself
    start like one, the segments between the delimiters are the system,
    the subsystem and the signal, and the components a shorter name lacks
    are absent. *)
Theorem parse_channel_name_segments (a b : ascii)
    (system subsystem signal : string) (d1 d2 : ascii) :
  is_upper a = true -> is_digit b = true ->
  count_cchar system = 0 -> count_cchar subsystem = 0 ->
  count_cchar signal = 0 ->
  is_cchar d1 = true -> is_cchar d2 = true ->
  let ifo := String a (String b EmptyString) in
  let after_prefix := fun body => String a (String b (String ":" body)) in
  parse_channel_name (after_prefix system)
  = (Some ifo, Some system, None, None) /\
  parse_channel_name (after_prefix (system ++ String d1 subsystem)%string)
  = (Some ifo, Some system, Some subsystem, None) /\
  parse_channel_name
    (after_prefix (join_segments system d1 subsystem d2 signal))
  = (Some ifo, Some system, Some subsystem, Some signal) /\
  (_re_ifo_match system = false ->
   (system <> EmptyString ->
    parse_channel_name system = (None, Some system, None, None)) /\
   parse_channel_name (system ++ String d1 subsystem)%string
   = (None, Some system, Some subsystem, None) /\
   parse_channel_name (join_segments system d1 subsystem d2 signal)
   = (None, Some system, Some subsystem, Some signal)).
Proof.
  intros Ha Hb H0 H1 H2 Hd1 Hd2 ifo after_prefix.
  assert (Hone : _re_cchar_split 3 system = [system])
    by exact (split_no_cchar system 3 H0).
  assert (Htwo : _re_cchar_split 3 (system ++ String d1 subsystem)%string
                 = [system; subsystem]).
  { rewrite (split_at_cchar system d1 _ 2 H0 Hd1).
    rewrite (split_no_cchar subsystem 2 H1). reflexivity. }
  pose proof (split_three system subsystem signal d1 d2 H0 H1 H2 Hd1 Hd2)
    as Hthree.
  unfold after_prefix, ifo.
  repeat rewrite (parse_prefixed a b _ Ha Hb).
  rewrite Hone, Htwo, Hthree.
  split; [reflexivity|]. split; [reflexivity|]. split; [reflexivity|].
  intros Hm. split; [|split].
  - intros Hne. rewrite (parse_unprefixed system Hne Hm), Hone. reflexivity.
  - rewrite parse_unprefixed, Htwo; [reflexivity | apply append_not_empty |].
    rewrite (ifo_match_first_segment system d1 _ Hd1). exact Hm.
  - rewrite parse_unprefixed, Hthree;
      [reflexivity | apply append_not_empty |].
    unfold join_segments.
    rewrite (ifo_match_first_segment system d1 _ Hd1). exact Hm.
Qed.

(** ["P1:SYS-SUB_SIG"], and ["SYS-SUB_SIG"] without the prefix. *)
Lemma parse_channel_name_segments_witness :
  parse_channel_name "P1:SYS-SUB_SIG"
  = (Some "P1", Some "SYS", Some "SUB", Some "SIG") /\
  parse_channel_name "P1:SYS-SUB" = (Some "P1", Some "SYS", Some "SUB", None) /\
  parse_channel_name "SYS-SUB_SIG" = (None, Some "SYS", Some "SUB", Some "SIG").
Proof.
  destruct (parse_channel_name_segments "P" "1" "SYS" "SUB" "SIG" "-" "_"
              eq_refl eq_refl eq_refl eq_refl eq_refl eq_refl eq_refl)
    as [_ [Htwo [Hthree Hbare]]].
  destruct (Hbare eq_refl) as [_ [_ Hbare3]].
  split; [exact Hthree|]. split; [exact Htwo | exact Hbare3].
Defined.

(** ** The attributes of a Channel *)

Section ChannelAttributes.

Context {lib : Library}.

Lemma reachable_parsed (self : Channel) :
  reachable self ->
  (_ifo self, _system self, _subsystem self, _signal self) =
  parse_channel_name (_name self).
Proof.
  induction 1 as
    [ n sr u d m self H
    | c sr u d m self _ _ H
    | self n _ IH
    | self rate self' _ IH H
    | self u self' _ IH H
    | self t self' _ IH H
    | self mdl self' _ IH H ].
  - apply Channel_init_Ok in H.
    destruct H as (n' & rate' & u' & mdl' & _ & _ & _ & _ & Hn & Hp).
    rewrite Hn. exact Hp.
  - apply Channel_init_Ok in H.
    destruct H as (n' & rate' & u' & mdl' & _ & _ & _ & _ & Hn & Hp).
    rewrite Hn. exact Hp.
  - unfold set_name.
    destruct (parse_channel_name n) as [[[ifo sys] sub] sig] eqn:Hp.
    simpl. rewrite Hp. reflexivity.
  - unfold set_sample_rate in H. bind_inv H r Hr. injection H as <-. exact IH.
  - unfold set_unit in H. bind_inv H x Hx. injection H as <-. exact IH.
  - unfold set_dtype in H. bind_inv H x Hx. injection H as <-. exact IH.
  - unfold set_model in H. bind_inv H x Hx. injection H as <-. exact IH.
Qed.

(** X5: the four derived attributes of a Channel are always those of its
    name: whatever sequence of constructions and assignments produced the
    Channel, [ifo], [system], [subsystem] and [signal] are the components
    [parse_channel_name] reads off [name]. *)
Theorem derived_attributes_follow_name (self : Channel) :
  reachable self ->
  (_ifo self, _system self, _subsystem self, _signal self) =
  parse_channel_name (_name self).
Proof.
  exact (reachable_parsed self).
Qed.

(** X6: after the assignment of a string the model of the Channel is its
    lower-case form, which holds no upper-case letter; [None] stays
    [None]; assigning to a Channel the model it already holds changes
    nothing; and a true value that has no method [lower], such as an
    integer other than 0, raises [AttributeError]. *)
Theorem model_setter_lowercases (self : Channel) :
  (forall s,
     exists self',
       set_model self (PStr s) = Ok self' /\ _model self' = PStr (lower s)) /\
  (forall s, all_chars (fun c => negb (is_upper c)) (lower s) = true) /\
  (exists self', set_model self PNone = Ok self' /\ _model self' = PNone) /\
  (forall mdl self', set_model self mdl = Ok self' ->
                     set_model self' (_model self') = Ok self') /\
  (forall z, z <> 0%Z -> set_model self (PInt z) = Raise AttributeError).
Proof.
  split; [|split; [|split; [|split]]].
  - intros s. exists (store_model self (PStr (lower s))). split.
    + unfold set_model, model_value, py_or, py_lower. simpl.
      destruct s as [|c s]; reflexivity.
    + reflexivity.
  - intros s. induction s as [|c s IH]; simpl; [reflexivity|].
    rewrite IH, andb_true_r.
    destruct c as [[] [] [] [] [] [] [] []]; reflexivity.
  - eexists. split; reflexivity.
  - intros mdl self' H. unfold set_model in H. bind_inv H m Hm.
    injection H as <-. unfold set_model. simpl.
    rewrite (model_value_fixed _ _ Hm). reflexivity.
  - intros z Hz. unfold set_model, model_value. simpl.
    destruct (Z.eqb_spec z 0) as [->|_]; [contradiction|]. reflexivity.
Qed.

Lemma py_or_false (a b : pyval) :
  py_truth a = Ok false -> py_or a b = Ok b.
Proof.
  intros H. unfold py_or. rewrite H. reflexivity.
Qed.

(** X7: in [Channel(ch, ...)] for a Channel [ch], an argument that is
    false ([None], [0], [0.0], [False], the empty string) counts as
    omitted: the call returns or raises what the call without it does, so
    the attribute of [ch] is copied.  This holds for [sample_rate], [unit]
    and [model] alike. *)
Theorem Channel_init_false_argument_omitted (c : Channel)
    (sample_rate unit dtype model : pyval) :
  (py_truth sample_rate = Ok false ->
   Channel_init (ChChannel c) sample_rate unit dtype model =
   Channel_init (ChChannel c) PNone unit dtype model) /\
  (py_truth unit = Ok false ->
   Channel_init (ChChannel c) sample_rate unit dtype model =
   Channel_init (ChChannel c) sample_rate PNone dtype model) /\
  (py_truth model = Ok false ->
   Channel_init (ChChannel c) sample_rate unit dtype model =
   Channel_init (ChChannel c) sample_rate unit dtype PNone).
Proof.
  split; [|split]; intros H; unfold Channel_init.
  - rewrite (py_or_false _ _ H). reflexivity.
  - destruct (py_or sample_rate (_sample_rate c)) as [sr|e]; [|reflexivity].
    simpl. rewrite (py_or_false _ _ H). reflexivity.
  - destruct (py_or sample_rate (_sample_rate c)) as [sr|e]; [|reflexivity].
    simpl. destruct (py_or unit (_unit c)) as [un|e]; [|reflexivity].
    simpl. destruct (py_or dtype (PType (_dtype c))) as [dt|e]; [|reflexivity].
    simpl. rewrite (py_or_false _ _ H). reflexivity.
Qed.

(** X8: [Channel(ch)] with no other argument is a copy of [ch], its dtype
    apart: for every Channel [ch] a program can hold whose sample rate
    [float] gives back (as it does for [None] and a Unit, which are not
    converted), the call returns a Channel with the attributes of [ch] and
    the dtype [type]. *)
Theorem Channel_init_copy (ch : Channel) :
  reachable ch ->
  (forall f u, _sample_rate ch = PQuantity f u -> Quantity_float f u = Ok f) ->
  Channel_init (ChChannel ch) PNone PNone PNone PNone
  = Ok (store_dtype ch TyType).
Proof.
  intros R Hf.
  pose proof (reachable_parsed ch R) as Hp.
  destruct (reachable_attrs_set ch R) as [Hr [Hu Hm]].
  unfold Channel_init. simpl.
  destruct (parse_channel_name (_name ch)) as [[[ifo sys] sub] sig].
  injection Hp as <- <- <- <-.
  assert (Hrate : sample_rate_value (_sample_rate ch) = Ok (_sample_rate ch)).
  { destruct Hr as [Hr|[[u [Hr Hu']]|[f Hr]]].
    - rewrite Hr. reflexivity.
    - rewrite Hr. unfold sample_rate_value. simpl. rewrite Hu'. reflexivity.
    - unfold sample_rate_value. rewrite Hr. simpl.
      rewrite (Hf f Hertz Hr). reflexivity. }
  rewrite Hrate. simpl. rewrite (unit_value_fixed _ Hu). simpl.
  rewrite Hm. reflexivity.
Qed.

End ChannelAttributes.

(** [Channel("L1:PSL-ISS", sample_rate=16)] is what the constructor
    returns. *)
Lemma l1_psl_iss_16_reachable : reachable (lib := plain_library) l1_psl_iss_16.
Proof.
  apply reach_init_name
    with (n := "L1:PSL-ISS") (sample_rate := PInt 16) (unit := PNone)
         (dtype := PNone) (model := PNone).
  reflexivity.
Defined.

(** [ch = Channel("H1:PSL-ISS"); ch.dtype = float]: the derived attributes
    are those of ["H1:PSL-ISS"]. *)
Lemma derived_attributes_follow_name_witness :
  reachable (lib := plain_library) h1_psl_iss_float /\
  (_ifo h1_psl_iss_float, _system h1_psl_iss_float,
   _subsystem h1_psl_iss_float, _signal h1_psl_iss_float)
  = parse_channel_name "H1:PSL-ISS".
Proof.
  split; [exact h1_psl_iss_float_reachable|].
  exact (@derived_attributes_follow_name plain_library h1_psl_iss_float
           h1_psl_iss_float_reachable).
Defined.

(** [Channel(ch)] for [ch = Channel("L1:PSL-ISS", sample_rate=16)] is
    [ch]. *)
Lemma Channel_init_copy_witness :
  reachable (lib := plain_library) l1_psl_iss_16 /\
  (forall f u, _sample_rate l1_psl_iss_16 = PQuantity f u ->
               Quantity_float (Library := plain_library) f u = Ok f) /\
  Channel_init (lib := plain_library)
    (ChChannel l1_psl_iss_16) PNone PNone PNone PNone = Ok l1_psl_iss_16.
Proof.
  assert (Hf : forall f u, _sample_rate l1_psl_iss_16 = PQuantity f u ->
                 Quantity_float (Library := plain_library) f u = Ok f)
    by (intros f u _; reflexivity).
  split; [exact l1_psl_iss_16_reachable|]. split; [exact Hf|].
  exact (@Channel_init_copy plain_library l1_psl_iss_16
           l1_psl_iss_16_reachable Hf).
Defined.

(** ** [Channel.tex_name] *)

Lemma replace_underscore_length (s : string) :
  String.length (replace_underscore "\_" s) =
  String.length s + count_underscores s.
Proof.
  induction s as [|c s IH]; simpl; [reflexivity|].
  destruct (c =? "_")%char; simpl; rewrite IH; lia.
Qed.

Lemma replace_underscore_escaped (s : string) (b : bool) :
  bare_underscores b (replace_underscore "\_" s) = 0.
Proof.
  revert b. induction s as [|c s IH]; intros b; simpl; [reflexivity|].
  destruct (c =? "_")%char eqn:Hc; simpl.
  - apply IH.
  - rewrite Hc. simpl. apply IH.
Qed.

Lemma replace_underscore_none (s : string) :
  count_underscores s = 0 -> replace_underscore "\_" s = s.
Proof.
  induction s as [|c s IH]; simpl; [reflexivity|].
  destruct (c =? "_")%char; [discriminate|].
  intros H. rewrite (IH H). reflexivity.
Qed.

Lemma replace_underscore_head (s t : string) :
  replace_underscore "\_" s <> String "_" t.
Proof.
  destruct s as [|c s]; simpl; [discriminate|].
  destruct (c =? "_")%char eqn:Hc; simpl.
  - discriminate.
  - intros H. injection H as H _. subst c. discriminate Hc.
Qed.

Lemma replace_underscore_injective (s1 s2 : string) :
  replace_underscore "\_" s1 = replace_underscore "\_" s2 -> s1 = s2.
Proof.
  revert s2. induction s1 as [|x t1 IH]; intros [|y t2]; simpl.
  - reflexivity.
  - destruct (y =? "_")%char; discriminate.
  - destruct (x =? "_")%char; discriminate.
  - destruct (Ascii.eqb_spec x "_") as [->|Hx];
      destruct (Ascii.eqb_spec y "_") as [->|Hy]; simpl; intros H.
    + injection H as H. rewrite (IH t2 H). reflexivity.
    + injection H as _ H. symmetry in H.
      exfalso. exact (replace_underscore_head t2 _ H).
    + injection H as _ H.
      exfalso. exact (replace_underscore_head t1 _ H).
    + injection H as -> H. rewrite (IH t2 H). reflexivity.
Qed.

(** X9: the LaTeX name of a Channel is its name with one backslash added
    before each underscore: it is longer by the number of underscores, no
    underscore in it stands without a backslash before it, a name without
    underscores is unchanged, and two Channels of different names have
    different LaTeX names. *)
Theorem tex_name_escapes_underscores (self : Channel) :
  String.length (tex_name self) =
  String.length (_name self) + count_underscores (_name self) /\
  bare_underscores false (tex_name self) = 0 /\
  (count_underscores (_name self) = 0 -> tex_name self = _name self) /\
  (forall other, tex_name self = tex_name other -> _name self = _name other).
Proof.
  unfold tex_name, Channel_str. split; [|split; [|split]].
  - apply replace_underscore_length.
  - apply replace_underscore_escaped.
  - apply replace_underscore_none.
  - intros other. apply replace_underscore_injective.
Qed.

(** ** [ChannelList.sieve] when it returns *)

Section SieveResults.

Context {lib : Library}.

Lemma filter_m_Ok_filter {A : Type} (cond : A -> result bool) (l r : list A) :
  filter_m cond l = Ok r -> r = filter (answer_of cond) l.
Proof.
  revert r. induction l as [|x l IH]; simpl; intros r H.
  - injection H as <-. reflexivity.
  - bind_inv H b Hb. bind_inv H rest Hrest. injection H as <-.
    unfold answer_of at 1. rewrite Hb, (IH rest Hrest).
    destruct b; reflexivity.
Qed.

Lemma filter_m_defined {A : Type} (cond : A -> result bool) (l : list A) :
  (forall x, In x l -> exists b, cond x = Ok b) ->
  filter_m cond l = Ok (filter (answer_of cond) l).
Proof.
  induction l as [|x l IH]; simpl; intros H; [reflexivity|].
  destruct (H x (or_introl eq_refl)) as [b Hb].
  unfold answer_of at 1. rewrite Hb. simpl.
  rewrite IH; [|intros y Hy; apply H; right; exact Hy].
  simpl. destruct b; reflexivity.
Qed.

Lemma filter_filter {A : Type} (p q : A -> bool) (l : list A) :
  filter p (filter q l) = filter (fun x => q x && p x) l.
Proof.
  induction l as [|x l IH]; simpl; [reflexivity|].
  destruct (q x); simpl; [destruct (p x)|]; rewrite IH; reflexivity.
Qed.

Lemma sieve_compiled (self : ChannelList) (name : pyval)
    (sample_rate : option pyfloat) (sample_range : option (pyfloat * pyfloat))
    (pattern : string) (flags : Z) :
  pattern_of name = Some (pattern, flags) ->
  sieve self name sample_rate sample_range false =
  (name_regexp <- re_compile pattern flags ;;
   c <- rate_filter sample_rate
          (filter (fun entry => re_search name_regexp (_name entry)) self) ;;
   c <- range_filter sample_range c ;;
   Ok c).
Proof.
  intros Hp. unfold sieve, rate_filter, range_filter.
  destruct name; try discriminate Hp; simpl in Hp; injection Hp as <- <-;
    simpl; destruct (re_compile _ _) as [re|e]; simpl;
    try reflexivity; rewrite filter_m_total; simpl;
    destruct sample_rate; reflexivity.
Qed.

Lemma rate_filter_Ok (sample_rate : option pyfloat) (c r : ChannelList) :
  rate_filter sample_rate c = Ok r -> r = filter (rate_matches sample_rate) c.
Proof.
  unfold rate_filter. destruct sample_rate as [rate|]; intros H.
  - rewrite (filter_m_Ok_filter _ _ _ H). apply filter_ext.
    intros entry. unfold answer_of, rate_matches.
    destruct (py_float (_sample_rate entry)); reflexivity.
  - injection H as <-. symmetry. apply forallb_filter_id.
    apply forallb_forall. reflexivity.
Qed.

Lemma range_filter_Ok (sample_range : option (pyfloat * pyfloat))
    (c r : ChannelList) :
  range_filter sample_range c = Ok r ->
  r = filter (rate_in_range sample_range) c.
Proof.
  unfold range_filter. destruct sample_range as [[low high]|]; intros H.
  - rewrite (filter_m_Ok_filter _ _ _ H). apply filter_ext.
    intros entry. unfold answer_of, rate_in_range.
    destruct (py_float (_sample_rate entry)); reflexivity.
  - injection H as <-. symmetry. apply forallb_filter_id.
    apply forallb_forall. reflexivity.
Qed.

(** X10: whenever [sieve] returns, for a name that is a string or a
    compiled pattern, the list it returns holds exactly the Channels of
    [self] whose name the pattern finds and whose rate is the one given and
    lies in the range given, in the order they have in [self]. *)
Theorem sieve_returns_the_matching_channels (self : ChannelList)
    (name : pyval) (sample_rate : option pyfloat)
    (sample_range : option (pyfloat * pyfloat))
    (pattern : string) (flags : Z) (name_regexp : regex) (r : ChannelList) :
  pattern_of name = Some (pattern, flags) ->
  re_compile pattern flags = Ok name_regexp ->
  sieve self name sample_rate sample_range false = Ok r ->
  r = filter (fun entry =>
                re_search name_regexp (_name entry) &&
                rate_matches sample_rate entry &&
                rate_in_range sample_range entry) self.
Proof.
  intros Hp Hc H. rewrite (sieve_compiled _ _ _ _ _ _ Hp), Hc in H.
  simpl in H. bind_inv H c1 H1. bind_inv H c2 H2. injection H as <-.
  apply rate_filter_Ok in H1. apply range_filter_Ok in H2.
  rewrite H2, H1, !filter_filter.
  apply filter_ext. intros entry. rewrite andb_assoc. reflexivity.
Qed.

(** X11: with a name alone, [sieve] raises only if the pattern does not
    compile, and then what [re.compile] raises; otherwise it returns the
    Channels whose name the pattern finds, in their order, whatever
    their sample rates are. *)
Theorem sieve_by_name_alone (self : ChannelList) (name : pyval)
    (pattern : string) (flags : Z) :
  pattern_of name = Some (pattern, flags) ->
  (forall name_regexp, re_compile pattern flags = Ok name_regexp ->
     sieve self name None None false =
     Ok (filter (fun entry => re_search name_regexp (_name entry)) self)) /\
  (forall e sample_rate sample_range, re_compile pattern flags = Raise e ->
     sieve self name sample_rate sample_range false = Raise e).
Proof.
  intros Hp. split.
  - intros re Hc. rewrite (sieve_compiled _ _ _ _ _ _ Hp), Hc. reflexivity.
  - intros e sr rg Hc. rewrite (sieve_compiled _ _ _ _ _ _ Hp), Hc.
    reflexivity.
Qed.

(** X12: [sieve] returns, and does not raise, when the pattern compiles
    and [float] accepts the sample rate of every Channel whose name the
    pattern finds. *)
Theorem sieve_returns_when_rates_convert (self : ChannelList)
    (name : pyval) (sample_rate : option pyfloat)
    (sample_range : option (pyfloat * pyfloat))
    (pattern : string) (flags : Z) (name_regexp : regex) :
  pattern_of name = Some (pattern, flags) ->
  re_compile pattern flags = Ok name_regexp ->
  (forall entry, In entry self ->
     re_search name_regexp (_name entry) = true ->
     exists f, py_float (_sample_rate entry) = Ok f) ->
  sieve self name sample_rate sample_range false =
  Ok (filter (fun entry =>
                re_search name_regexp (_name entry) &&
                rate_matches sample_rate entry &&
                rate_in_range sample_range entry) self).
Proof.
  intros Hp Hc Hf. rewrite (sieve_compiled _ _ _ _ _ _ Hp), Hc. simpl.
  set (named := filter (fun entry => re_search name_regexp (_name entry)) self).
  assert (Hnamed : forall entry, In entry named ->
            exists f, py_float (_sample_rate entry) = Ok f).
  { intros entry Hin. apply filter_In in Hin. destruct Hin as [Hin Hs].
    exact (Hf entry Hin Hs). }
  assert (H1 : rate_filter sample_rate named
               = Ok (filter (rate_matches sample_rate) named)).
  { unfold rate_filter. destruct sample_rate as [rate|].
    - rewrite filter_m_defined.
      + f_equal. apply filter_ext. intros entry.
        unfold answer_of, rate_matches.
        destruct (py_float (_sample_rate entry)); reflexivity.
      + intros entry Hin. destruct (Hnamed entry Hin) as [f Hfl].
        rewrite Hfl. simpl. eauto.
    - f_equal. symmetry. apply forallb_filter_id.
      apply forallb_forall. reflexivity. }
  rewrite H1. simpl.
  assert (H2 : range_filter sample_range
                 (filter (rate_matches sample_rate) named)
               = Ok (filter (rate_in_range sample_range)
                       (filter (rate_matches sample_rate) named))).
  { unfold range_filter. destruct sample_range as [[low high]|].
    - rewrite filter_m_defined.
      + f_equal. apply filter_ext. intros entry.
        unfold answer_of, rate_in_range.
        destruct (py_float (_sample_rate entry)); reflexivity.
      + intros entry Hin. apply filter_In in Hin. destruct Hin as [Hin _].
        destruct (Hnamed entry Hin) as [f Hfl]. rewrite Hfl. simpl. eauto.
    - f_equal. symmetry. apply forallb_filter_id.
      apply forallb_forall. reflexivity. }
  rewrite H2. simpl. unfold named. rewrite !filter_filter.
  f_equal. apply filter_ext. intros entry. rewrite andb_assoc. reflexivity.
Qed.

End SieveResults.

(** [sieve(name="L1", sample_rate=16)] on ["H1:PSL-ISS"] without a rate
    and ["L1:PSL-ISS"] at 16 Hz returns the second. *)
Lemma sieve_returns_the_matching_channels_witness :
  sieve (lib := plain_library)
    [h1_psl_iss; l1_psl_iss_16] (PStr "L1") (Some f16) None false
  = Ok [l1_psl_iss_16] /\
  [l1_psl_iss_16] =
  filter (fun entry =>
            contains "L1" (_name entry) &&
            rate_matches (lib := plain_library) (Some f16) entry &&
            rate_in_range (lib := plain_library) None entry)
         [h1_psl_iss; l1_psl_iss_16].
Proof.
  split; [reflexivity|].
  exact (@sieve_returns_the_matching_channels plain_library
           [h1_psl_iss; l1_psl_iss_16] (PStr "L1") (Some f16) None
           "L1" 0%Z "L1" [l1_psl_iss_16] eq_refl eq_refl eq_refl).
Defined.

(** [sieve(name="PSL")] on the same list returns both Channels, the one
    without a sample rate included. *)
Lemma sieve_by_name_alone_witness :
  pattern_of (PStr "PSL") = Some ("PSL", 0%Z) /\
  sieve (lib := plain_library)
    [h1_psl_iss; l1_psl_iss_16] (PStr "PSL") None None false
  = Ok [h1_psl_iss; l1_psl_iss_16].
Proof.
  split; [reflexivity|].
  destruct (@sieve_by_name_alone plain_library
              [h1_psl_iss; l1_psl_iss_16] (PStr "PSL") "PSL" 0%Z eq_refl)
    as [H _].
  exact (H "PSL" eq_refl).
Defined.

(** [sieve(name="L1", sample_range=(16, 2048))]: the one Channel the
    pattern finds has a rate. *)
Lemma sieve_returns_when_rates_convert_witness :
  (forall entry, In entry [h1_psl_iss; l1_psl_iss_16] ->
     contains "L1" (_name entry) = true ->
     exists f, py_float (lib := plain_library) (_sample_rate entry) = Ok f) /\
  sieve (lib := plain_library)
    [h1_psl_iss; l1_psl_iss_16] (PStr "L1") None (Some (f16, f2048)) false
  = Ok [l1_psl_iss_16].
Proof.
  assert (Hf : forall entry, In entry [h1_psl_iss; l1_psl_iss_16] ->
             contains "L1" (_name entry) = true ->
             exists f,
               py_float (lib := plain_library) (_sample_rate entry) = Ok f).
  { intros entry [<-|[<-|[]]] Hs.
    - discriminate Hs.
    - eexists. reflexivity. }
  split; [exact Hf|].
  rewrite (@sieve_returns_when_rates_convert plain_library
             [h1_psl_iss; l1_psl_iss_16] (PStr "L1") None (Some (f16, f2048))
             "L1" 0%Z "L1" eq_refl eq_refl Hf).
  reflexivity.
Defined.

(** ** [Channel.query] *)

Section CatalogProperties.

Variable cis_query : string -> bool -> result ChannelList.

(** X13: [Channel.query] returns a Channel exactly when the catalog
    returns a list of that one Channel; it raises what the catalog raises,
    and [ValueError] when the catalog returns no Channel or more than
    one. *)
Theorem Channel_query_single_match (name : string) (debug : bool) :
  (forall c, Channel_query cis_query name debug = Ok c <->
             ChannelList_query cis_query name debug = Ok [c]) /\
  (forall e, Channel_query cis_query name debug = Raise e <->
             (ChannelList_query cis_query name debug = Raise e \/
              (e = ValueError /\
               exists channellist,
                 ChannelList_query cis_query name debug = Ok channellist /\
                 List.length channellist <> 1))).
Proof.
  unfold Channel_query.
  destruct (ChannelList_query cis_query name debug) as [[|c0 [|c1 l]]|e0];
    simpl; split.
  - intros c. split; discriminate.
  - intros e. split.
    + intros H. injection H as <-. right. split; [reflexivity|].
      exists []. split; [reflexivity | discriminate].
    + intros [H|[-> _]]; [discriminate H | reflexivity].
  - intros c. split; intros H; injection H as <-; reflexivity.
  - intros e. split.
    + discriminate.
    + intros [H|[_ [l [Hl Hn]]]]; [discriminate H|].
      injection Hl as <-. exfalso. apply Hn. reflexivity.
  - intros c. split; discriminate.
  - intros e. split.
    + intros H. injection H as <-. right. split; [reflexivity|].
      exists (c0 :: c1 :: l). split; [reflexivity | discriminate].
    + intros [H|[-> _]]; [discriminate H | reflexivity].
  - intros c. split; discriminate.
  - intros e. split.
    + intros H. left. injection H as <-. reflexivity.
    + intros [H|[_ [l [Hl _]]]]; [|discriminate Hl].
      injection H as <-. reflexivity.
Qed.

End CatalogProperties.

(** ** [Channel.fetch_timeseries] *)

Section TimeSeriesProperties.

Context {lib : Library}.

Variable TimeSeries : Type.
Variable DEFAULT_HOSTS : option string -> option (pyval * pyval).
Variable NDSConnection_fetch :
  pyval -> pyval -> pyval -> pyval -> string -> result TimeSeries.

(** X14: which server [fetch_timeseries] asks.  With a host and no port,
    the table of default hosts is not read and the connection is opened
    with the host and the port as given.  With a host and a port, the
    table is read all the same: the call raises [KeyError] when the
    observatory of the Channel has no entry, and otherwise connects to the
    host and port given.  With no host, the default host is used, with the
    port given if there is one and the default port if not, and the call
    raises [KeyError] when the observatory has no entry.  The series asked
    for is that of the name of the Channel. *)
Theorem fetch_timeseries_host_and_port (self : Channel)
    (start end_ host port : pyval) :
  let fetch :=
    fetch_timeseries TimeSeries DEFAULT_HOSTS NDSConnection_fetch
      self start end_ host port in
  let ask := fun h p =>
    Fetch TimeSeries (NDSConnection_fetch h p start end_ (_name self)) in
  (py_truth host = Ok true -> py_truth port = Ok false ->
   fetch = ask host port) /\
  (py_truth host = Ok true -> py_truth port = Ok true ->
   (DEFAULT_HOSTS (_ifo self) = None -> fetch = KeyError TimeSeries) /\
   (forall dhost dport, DEFAULT_HOSTS (_ifo self) = Some (dhost, dport) ->
      fetch = ask host port)) /\
  (py_truth host = Ok false ->
   (DEFAULT_HOSTS (_ifo self) = None -> fetch = KeyError TimeSeries) /\
   (forall dhost dport b,
      DEFAULT_HOSTS (_ifo self) = Some (dhost, dport) ->
      py_truth port = Ok b ->
      fetch = ask dhost (if b then port else dport))).
Proof.
  intros fetch ask. unfold fetch, ask, fetch_timeseries, py_or.
  split; [|split].
  - intros Hh Hp. rewrite Hh. simpl. rewrite Hp. reflexivity.
  - intros Hh Hp. rewrite Hh. simpl. rewrite Hp. split.
    + intros Hd. rewrite Hd. reflexivity.
    + intros dhost dport Hd. rewrite Hd. reflexivity.
  - intros Hh. rewrite Hh. simpl. split.
    + intros Hd. rewrite Hd. reflexivity.
    + intros dhost dport b Hd Hp. rewrite Hd, Hp. simpl. reflexivity.
Qed.

End TimeSeriesProperties.

(** ** What the [unit] and [model] attributes hold *)

Section AttributeInvariants.

Context {lib : Library}.

(** X15: through construction and every assignment, the unit of a Channel
    is [None] or a unit object, never the string or number it was given;
    and its model is a false value stored as given ([None], the empty
    string) or a string that is not empty and is its own lower-case
    form. *)
Theorem unit_and_model_stay_normalised (self : Channel) :
  reachable self ->
  None_or_unit_object (_unit self) /\
  (py_truth (_model self) = Ok false \/
   exists s, _model self = PStr s /\ s <> EmptyString /\ lower s = s).
Proof.
  intros R. destruct (reachable_attrs_set self R) as [_ [Hu Hm]].
  split; [exact Hu|].
  destruct (model_value_Ok _ _ Hm) as [[_ Ht]|[s [Hs [Hne Heq]]]].
  - left. exact Ht.
  - right. exists s. split; [exact Hs|]. split.
    + intros ->. discriminate Hne.
    + rewrite Hs in Heq. injection Heq as Heq. symmetry. exact Heq.
Qed.

End AttributeInvariants.

(** [ch = Channel("H1:PSL-ISS", unit="Hz", model="H1PSLISS")]: the unit is
    the unit object of hertz and the model is ["h1psliss"]. *)
Lemma unit_and_model_stay_normalised_witness :
  exists self,
    Channel_init (lib := plain_library)
      (ChName "H1:PSL-ISS") PNone (PStr "Hz") PNone (PStr "H1PSLISS")
    = Ok self /\
    _unit self = PUnit Hertz /\ _model self = PStr "h1psliss" /\
    None_or_unit_object (_unit self) /\
    (py_truth (lib := plain_library) (_model self) = Ok false \/
     exists s, _model self = PStr s /\ s <> EmptyString /\ lower s = s).
Proof.
  eexists. split; [reflexivity|]. split; [reflexivity|].
  split; [reflexivity|].
  apply (@unit_and_model_stay_normalised plain_library).
  apply reach_init_name
    with (n := "H1:PSL-ISS") (sample_rate := PNone) (unit := PStr "Hz")
         (dtype := PNone) (model := PStr "H1PSLISS").
  reflexivity.
Defined.
